(** * my-weather-dashboard: the fetch / validate / transform pipeline of
      [src/app/page.tsx]

    The page component fetches daily weather from Open-Meteo, reshapes the
    columnar payload into one record per day and keeps three pieces of hook
    state (data, loading, error) plus a range error of its own.  This file
    embeds that code and proves the properties its specification states.

    Conventions.
    - A JavaScript value that may be [undefined] is an [option]: [None] is
      [undefined].  Reading [a[i]] on an array is list lookup [a !! i], which
      is [None] out of range, as in JavaScript.
    - [number] is kept abstract: the code only copies numbers, prints them
      into a URL or a message and tests them for truthiness, so the
      development is parametric in the type and in those two operations
      (class [JSNumber]).
    - Dates follow the Date objects of the language: time values in
      milliseconds, the local time zone and the date parser being parameters
      supplied by the host.
    - State setters ([setData], [setLoading], [setError],
      [setDateRangeError]) are state updates of a program in a small monad of
      effects; [await fetch(url)] is the one point where the program
      suspends and the network answers. *)

From Stdlib Require Import ZArith Lia Ascii.
From stdpp Require Import base list strings pretty.
From Equations Require Import Equations.

(** ** Thrown values

    What a [catch] clause can receive: an instance of [Error] (with its
    [name] and [message]), or any other value, of which only a rendering is
    kept since the code never looks at it. *)

Inductive thrown :=
| ErrorObject (name message : string)
| OtherValue (shown : string).

Definition result (A : Type) : Type := thrown + A.

(** ** The built-in Date, after ECMAScript (Date objects, 21.4.1)

    A time value is a number of milliseconds since the epoch, or NaN:
    [option Z] with [None] for NaN.  The definitions keep the names of the
    abstract operations of the language specification. *)

Local Open Scope Z_scope.

Definition msPerDay : Z := 86400000.
Definition msPerHour : Z := 3600000.
Definition msPerMinute : Z := 60000.
Definition msPerSecond : Z := 1000.

Definition Day (t : Z) : Z := t / msPerDay.
Definition TimeWithinDay (t : Z) : Z := t mod msPerDay.

Definition is_leap (y : Z) : bool :=
  (y mod 4 =? 0) && (negb (y mod 100 =? 0) || (y mod 400 =? 0)).

Definition DaysInYear (y : Z) : Z := if is_leap y then 366 else 365.

Definition DayFromYear (y : Z) : Z :=
  365 * (y - 1970) + (y - 1969) / 4 - (y - 1901) / 100 + (y - 1601) / 400.

(** The year of day number [d]: the largest [y] with [DayFromYear y <= d].
    A first guess from the mean length of a year is off by at most one. *)
Definition YearFromDay (d : Z) : Z :=
  let y := 1970 + (400 * d) / 146097 in
  if d <? DayFromYear y then y - 1
  else if DayFromYear (y + 1) <=? d then y + 1
  else y.

Definition YearFromTime (t : Z) : Z := YearFromDay (Day t).
Definition DayWithinYear (t : Z) : Z := Day t - DayFromYear (YearFromTime t).
Definition InLeapYear (t : Z) : Z := if is_leap (YearFromTime t) then 1 else 0.

(** Day within the year on which month [m] (0 to 11) starts. *)
Definition month_start (leap m : Z) : Z :=
  match m with
  | 0 => 0 | 1 => 31 | 2 => 59 + leap | 3 => 90 + leap | 4 => 120 + leap
  | 5 => 151 + leap | 6 => 181 + leap | 7 => 212 + leap | 8 => 243 + leap
  | 9 => 273 + leap | 10 => 304 + leap | _ => 334 + leap
  end.

Definition month_of_day_within_year (leap d : Z) : Z :=
  if d <? 31 then 0 else if d <? 59 + leap then 1
  else if d <? 90 + leap then 2 else if d <? 120 + leap then 3
  else if d <? 151 + leap then 4 else if d <? 181 + leap then 5
  else if d <? 212 + leap then 6 else if d <? 243 + leap then 7
  else if d <? 273 + leap then 8 else if d <? 304 + leap then 9
  else if d <? 334 + leap then 10 else 11.

Definition MonthFromTime (t : Z) : Z :=
  month_of_day_within_year (InLeapYear t) (DayWithinYear t).

Definition DateFromTime (t : Z) : Z :=
  DayWithinYear t - month_start (InLeapYear t) (MonthFromTime t) + 1.

Definition HourFromTime (t : Z) : Z := (t / msPerHour) mod 24.
Definition MinFromTime (t : Z) : Z := (t / msPerMinute) mod 60.
Definition SecFromTime (t : Z) : Z := (t / msPerSecond) mod 60.
Definition msFromTime (t : Z) : Z := t mod msPerSecond.

(** [MakeDay]: the day number of the first of month [month] of [year],
    months beyond 0..11 carrying into the year, plus [date - 1]. *)
Definition MakeDay (year month date : Z) : Z :=
  let ym := year + month / 12 in
  let mn := month mod 12 in
  DayFromYear ym + month_start (if is_leap ym then 1 else 0) mn + date - 1.

Definition MakeDate (day time : Z) : Z := day * msPerDay + time.

Definition TimeClip (t : option Z) : option Z :=
  match t with
  | Some t => if 8640000000000000 <? Z.abs t then None else Some t
  | None => None
  end.

(** Fixed-width decimal rendering, low digit last. *)
Definition digit (n : Z) : ascii := ascii_of_nat (48 + Z.to_nat (n mod 10)).

Fixpoint pad (width : nat) (n : Z) : string :=
  match width with
  | O => EmptyString
  | S w => pad w (n / 10) +:+ String (digit n) EmptyString
  end.

(** [s.split(c)]: the pieces of [s] between occurrences of the character
    [c]; there is always a first piece. *)
Fixpoint split (c : ascii) (s : string) : string * list string :=
  match s with
  | EmptyString => (EmptyString, [])
  | String a rest =>
      let '(piece, pieces) := split c rest in
      if Ascii.eqb a c then (EmptyString, piece :: pieces)
      else (String a piece, pieces)
  end.

(** [c] does not occur in [s]. *)
Fixpoint avoids (c : ascii) (s : string) : bool :=
  match s with
  | EmptyString => true
  | String a rest => negb (Ascii.eqb a c) && avoids c rest
  end.

Definition iso_year (y : Z) : string :=
  if (0 <=? y) && (y <=? 9999) then pad 4 y
  else (if 0 <=? y then "+" else "-") +:+ pad 6 (Z.abs y).

Definition iso_date (t : Z) : string :=
  iso_year (YearFromTime t) +:+ "-" +:+ pad 2 (MonthFromTime t + 1) +:+ "-"
    +:+ pad 2 (DateFromTime t).

Definition iso_time (t : Z) : string :=
  pad 2 (HourFromTime t) +:+ ":" +:+ pad 2 (MinFromTime t) +:+ ":"
    +:+ pad 2 (SecFromTime t) +:+ "." +:+ pad 3 (msFromTime t) +:+ "Z".

(** [Date.prototype.toISOString]: UTC fields; a RangeError on an invalid
    date. *)
Definition toISOString (tv : option Z) : result string :=
  match tv with
  | None => inl (ErrorObject "RangeError" "Invalid time value")
  | Some t => inr (iso_date t +:+ "T" +:+ iso_time t)
  end.

(** A sample parser: the date-only form [YYYY-MM-DD] of the date-time string
    format, read as UTC midnight.  It is what a date input holds and what
    [toISOString().split('T')[0]] returns. *)
Definition digit_value (c : ascii) : option Z :=
  let n := Z.of_nat (nat_of_ascii c) in
  if (48 <=? n) && (n <=? 57) then Some (n - 48) else None.

Fixpoint digits_value (acc : Z) (cs : list ascii) : option Z :=
  match cs with
  | [] => Some acc
  | c :: cs =>
      match digit_value c with
      | Some d => digits_value (10 * acc + d) cs
      | None => None
      end
  end.

Definition DaysInMonth (y m : Z) : Z :=
  let leap := if is_leap y then 1 else 0 in
  if m =? 11 then 31 else month_start leap (m + 1) - month_start leap m.

Definition parse_date_only (s : string) : option Z :=
  match String.list_ascii_of_string s with
  | [y1; y2; y3; y4; "-"%char; m1; m2; "-"%char; d1; d2] =>
      match digits_value 0 [y1; y2; y3; y4], digits_value 0 [m1; m2],
            digits_value 0 [d1; d2] with
      | Some y, Some m, Some d =>
          if (1 <=? m) && (m <=? 12) && (1 <=? d) && (d <=? DaysInMonth y (m - 1))
          then Some (MakeDate (MakeDay y (m - 1) d) 0)
          else None
      | _, _, _ => None
      end
  | _ => None
  end.

Section DateObject.

(** The host environment: the offset of the local time zone in
    milliseconds, [LocalTZA t isUTC], and the date parser behind
    [new Date(string)]. *)
Context (LocalTZA : Z → bool → Z).
Context (Date_parse : string → option Z).

Definition LocalTime (t : Z) : Z := t + LocalTZA t true.
Definition UTC (t : Z) : Z := t - LocalTZA t false.

(** [new Date()] at clock reading [now], and [new Date(dateString)]. *)
Definition Date_now (now : Z) : option Z := Some now.
Definition Date_of_string (dateString : string) : option Z :=
  TimeClip (Date_parse dateString).

Definition getDate (tv : option Z) : option Z :=
  match tv with
  | Some t => Some (DateFromTime (LocalTime t))
  | None => None
  end.

(** [date.setDate(dt)]: the new time value of the object. *)
Definition setDate (tv : option Z) (dt : option Z) : option Z :=
  match tv, dt with
  | Some t, Some dt =>
      let t := LocalTime t in
      let newDate :=
        MakeDate (MakeDay (YearFromTime t) (MonthFromTime t) dt) (TimeWithinDay t) in
      TimeClip (Some (UTC newDate))
  | _, _ => None
  end.

(** [a - b] and [a <= b] on numbers, NaN included. *)
Definition number_sub (a b : option Z) : option Z :=
  match a, b with
  | Some a, Some b => Some (a - b)
  | _, _ => None
  end.

Definition number_le (a b : option Z) : bool :=
  match a, b with
  | Some a, Some b => a <=? b
  | _, _ => false
  end.

(** ** Date utilities (page.tsx, lines 57-70) *)

Definition isValidDateRange (startDate endDate : string) : bool :=
  number_le (Date_of_string startDate) (Date_of_string endDate).

Definition getTodayDateString (now : Z) : result string :=
  let today := Date_now now in
  match toISOString today with
  | inl e => inl e
  | inr iso => inr (fst (split "T" iso))
  end.

Definition getDateStringDaysAgo (now : Z) (daysAgo : Z) : result string :=
  let date := Date_now now in
  let date := setDate date (number_sub (getDate date) (Some daysAgo)) in
  match toISOString date with
  | inl e => inl e
  | inr iso => inr (fst (split "T" iso))
  end.

End DateObject.

Local Close Scope Z_scope.

(** ** Data model (page.tsx, lines 19-48) *)

(** What the code needs of a JavaScript number besides copying it: its
    rendering in a template literal and its truthiness. *)
Class JSNumber (number : Type) := {
  number_toString : number → string;
  number_truthy : number → bool;
}.

Section Weather.

Context {number : Type} {Num : JSNumber number}.
Context (Date_parse : string → option Z).

Record DailyWeatherData := {
  time : list string;
  temperature_2m_max : list number;
  temperature_2m_min : list number;
  precipitation_sum : list number;
}.

Record DailyUnits := {
  units_time : string;
  units_temperature_2m_max : string;
  units_temperature_2m_min : string;
  units_precipitation_sum : string;
}.

Record WeatherApiResponse := {
  latitude : number;
  longitude : number;
  generationtime_ms : number;
  utc_offset_seconds : number;
  timezone : string;
  timezone_abbreviation : string;
  elevation : number;
  daily_units : DailyUnits;
  daily : DailyWeatherData;
}.

(** A field of a chart record holds whatever the indexing expression
    produced, [undefined] included. *)
Record ChartDataPoint := {
  date : option string;
  minTemp : option number;
  maxTemp : option number;
  precipitation : option number;
}.

(** ** transformWeatherData (lines 84-97) *)

(** The object literal pushed by the loop body at index [i]. *)
Definition point_at (daily : DailyWeatherData) (i : nat) : ChartDataPoint :=
  {| date := time daily !! i;
     minTemp := temperature_2m_min daily !! i;
     maxTemp := temperature_2m_max daily !! i;
     precipitation := precipitation_sum daily !! i |}.

(** [for (let i = 0; i < daily.time.length; i++) transformed.push(...)],
    entered at index [i] with the array built so far. *)
Equations transform_loop (daily : DailyWeatherData) (i : nat)
    (transformed : list ChartDataPoint) : list ChartDataPoint
    by wf (length (time daily) - i) lt :=
  transform_loop daily i transformed with lt_dec i (length (time daily)) => {
    | left _ => transform_loop daily (S i) (transformed ++ [point_at daily i]);
    | right _ => transformed }.
Next Obligation. lia. Qed.

Definition transformWeatherData (apiData : WeatherApiResponse) : list ChartDataPoint :=
  transform_loop (daily apiData) 0 [].

(** ** Untyped JSON values

    The body of a failed response is read with [errorData : any]; what the
    code does with it (truthiness, property read, string conversion) is
    defined on every JSON value. *)

#[local] Unset Elimination Schemes.
Inductive json :=
| JNull
| JBool (b : bool)
| JNumber (n : number)
| JString (s : string)
| JArray (elements : list json)
| JObject (members : list (string * json)).
#[local] Set Elimination Schemes.

(** [JSON.parse] keeps the last of several members with one key. *)
Fixpoint member (key : string) (members : list (string * json)) : option json :=
  match members with
  | [] => None
  | (k, v) :: rest =>
      match member key rest with
      | Some v' => Some v'
      | None => if String.eqb k key then Some v else None
      end
  end.

(** [v.key] for a key that no prototype defines, on a value other than
    [null] and [undefined]. *)
Definition property (v : json) (key : string) : option json :=
  match v with
  | JObject members => member key members
  | _ => None
  end.

(** ToBoolean. *)
Definition truthy (v : option json) : bool :=
  match v with
  | None | Some JNull => false
  | Some (JBool b) => b
  | Some (JNumber n) => number_truthy n
  | Some (JString s) => negb (String.eqb s "")
  | Some (JArray _) | Some (JObject _) => true
  end.

(** ToString, as a template literal applies it.  An object is converted
    through its [toString] method: a parsed object inherits the one that
    answers "[object Object]", unless it has a member of that name, which
    hides the method and, being data, cannot be called; the conversion then
    throws a TypeError.  An array joins the conversions of its elements
    with commas, [null] elements printing as nothing, and throws when an
    element does. *)
Definition not_primitive : thrown :=
  ErrorObject "TypeError" "Cannot convert object to primitive value".

Fixpoint toString (v : json) : result string :=
  match v with
  | JNull => inr "null"
  | JBool true => inr "true"
  | JBool false => inr "false"
  | JNumber n => inr (number_toString n)
  | JString s => inr s
  | JArray elements =>
      match
        (fix join (es : list json) : result (list string) :=
           match es with
           | [] => inr []
           | e :: es =>
               match match e with JNull => inr "" | _ => toString e end with
               | inl t => inl t
               | inr piece =>
                   match join es with
                   | inl t => inl t
                   | inr pieces => inr (piece :: pieces)
                   end
               end
           end) elements
      with
      | inl t => inl t
      | inr pieces => inr (String.concat "," pieces)
      end
  | JObject members =>
      match member "toString" members with
      | Some _ => inl not_primitive
      | None => inr "[object Object]"
      end
  end.

(** ** The network

    [response.ok] separates two kinds of response.  The body of an ok
    response is read at the type the code declares for it
    ([const apiResponse: WeatherApiResponse = await response.json()]); the
    body of any other response is untyped.  In both, [json()] may reject. *)

Inductive Response :=
| Response_ok (status : nat) (statusText : string)
    (body : result WeatherApiResponse)
| Response_failed (status : nat) (statusText : string) (body : result json).

Definition ok (response : Response) : bool :=
  match response with
  | Response_ok _ _ _ => true
  | Response_failed _ _ _ => false
  end.

(** What [fetch(url)] settles to: the promise rejects or yields a response. *)
Definition Network : Type := string → result Response.

(** ** State and effects *)

Record State := {
  data : option (list ChartDataPoint);
  loading : bool;
  error : option string;
  dateRangeError : option string;
}.

(** The initial values of the four [useState] calls (lines 100-102, 308). *)
Definition initial : State :=
  {| data := None; loading := false; error := None; dateRangeError := None |}.

Inductive update :=
| SetData (d : option (list ChartDataPoint))
| SetLoading (b : bool)
| SetError (e : option string)
| SetDateRangeError (e : option string).

Definition apply_update (u : update) (st : State) : State :=
  match u with
  | SetData d =>
      {| data := d; loading := loading st; error := error st;
         dateRangeError := dateRangeError st |}
  | SetLoading b =>
      {| data := data st; loading := b; error := error st;
         dateRangeError := dateRangeError st |}
  | SetError e =>
      {| data := data st; loading := loading st; error := e;
         dateRangeError := dateRangeError st |}
  | SetDateRangeError e =>
      {| data := data st; loading := loading st; error := error st;
         dateRangeError := e |}
  end.

(** A program either finishes, throws, updates the state and goes on, or
    waits for the network and goes on with the answer. *)
Inductive prog (A : Type) : Type :=
| Return (a : A)
| Throw (t : thrown)
| Update (u : update) (k : prog A)
| AwaitFetch (url : string) (k : result Response → prog A).

Arguments Return {A} a.
Arguments Throw {A} t.
Arguments Update {A} u k.
Arguments AwaitFetch {A} url k.

Fixpoint bind {A B} (m : prog A) (f : A → prog B) : prog B :=
  match m with
  | Return a => f a
  | Throw t => Throw t
  | Update u k => Update u (bind k f)
  | AwaitFetch url k => AwaitFetch url (λ r, bind (k r) f)
  end.

(** [try { m } catch (err) { handler err }] *)
Fixpoint try_catch {A} (m : prog A) (handler : thrown → prog A) : prog A :=
  match m with
  | Return a => Return a
  | Throw t => handler t
  | Update u k => Update u (try_catch k handler)
  | AwaitFetch url k => AwaitFetch url (λ r, try_catch (k r) handler)
  end.

(** [try { m } finally { cleanup }] *)
Fixpoint try_finally {A} (m : prog A) (cleanup : prog unit) : prog A :=
  match m with
  | Return a => bind cleanup (λ _, Return a)
  | Throw t => bind cleanup (λ _, Throw t)
  | Update u k => Update u (try_finally k cleanup)
  | AwaitFetch url k => AwaitFetch url (λ r, try_finally (k r) cleanup)
  end.

#[local] Instance prog_ret : MRet prog := @Return.
#[local] Instance prog_bind : MBind prog := λ A B f m, bind m f.

Definition setData d : prog unit := Update (SetData d) (Return tt).
Definition setLoading b : prog unit := Update (SetLoading b) (Return tt).
Definition setError e : prog unit := Update (SetError e) (Return tt).
Definition setDateRangeError e : prog unit :=
  Update (SetDateRangeError e) (Return tt).

(** [await p] on a promise that has settled to [r]. *)
Definition await {A} (r : result A) : prog A :=
  match r with
  | inl t => Throw t
  | inr a => Return a
  end.

Definition fetch (url : string) : prog Response := AwaitFetch url await.

(** Running a program against a network: the final state, the URLs
    requested in order, and how the program completed. *)
Fixpoint run {A} (net : Network) (m : prog A) (st : State)
    : State * list string * result A :=
  match m with
  | Return a => (st, [], inr a)
  | Throw t => (st, [], inl t)
  | Update u k => run net k (apply_update u st)
  | AwaitFetch url k =>
      let '(st', urls, r) := run net (k (net url)) st in (st', url :: urls, r)
  end.

Definition final {A} (o : State * list string * result A) : State := o.1.1.
Definition requests {A} (o : State * list string * result A) : list string := o.1.2.
Definition completion {A} (o : State * list string * result A) : result A := o.2.

(** The request a program is waiting on when it first suspends, with the
    state at that moment; [None] if it never touches the network. *)
Fixpoint in_flight {A} (m : prog A) (st : State) : option (string * State) :=
  match m with
  | Return _ | Throw _ => None
  | Update u k => in_flight k (apply_update u st)
  | AwaitFetch url _ => Some (url, st)
  end.

(** ** useWeatherData: fetchData (lines 104-143) *)

Definition OPEN_METEO_BASE_URL : string := "https://api.open-meteo.com/v1/forecast".

Definition apiUrl (latitude longitude : number) (startDate endDate : string) : string :=
  OPEN_METEO_BASE_URL +:+ "?latitude=" +:+ number_toString latitude
    +:+ "&longitude=" +:+ number_toString longitude
    +:+ "&daily=temperature_2m_max,temperature_2m_min,precipitation_sum&timezone=auto&start_date="
    +:+ startDate +:+ "&end_date=" +:+ endDate.

(** Lines 119-127: the message for a response that is not ok. *)
Definition error_message (status : nat) (statusText : string)
    (body : result json) : prog string :=
  let errorMsg :=
    "Failed to fetch weather data: " +:+ pretty status +:+ " " +:+ statusText in
  try_catch
    (errorData ← await body;
     if truthy (Some errorData) && truthy (property errorData "reason")
     then
       reason ← await match property errorData "reason" with
                      | Some reason => toString reason
                      | None => inr "undefined"
                      end;
       Return ("API Error: " +:+ reason)
     else Return errorMsg)
    (λ parseError, Return errorMsg).

Definition fetchData (latitude longitude : number) (startDate endDate : string)
    : prog unit :=
  setLoading true;;
  setError None;;
  setData None;;
  try_finally
    (try_catch
       (response ← fetch (apiUrl latitude longitude startDate endDate);
        match response with
        | Response_failed status statusText body =>
            errorMsg ← error_message status statusText body;
            Throw (ErrorObject "Error" errorMsg)
        | Response_ok _ _ body =>
            apiResponse ← await body;
            let transformedData := transformWeatherData apiResponse in
            setData (Some transformedData)
        end)
       (λ err,
          match err with
          | ErrorObject _ message => setError (Some message)
          | OtherValue _ => setError (Some "An unknown error occurred.")
          end))
    (setLoading false).

(** The two messages the [catch] clause can store (lines 135-139), and the
    status line of line 119. *)
Definition message_of (t : thrown) : string :=
  match t with
  | ErrorObject _ message => message
  | OtherValue _ => "An unknown error occurred."
  end.

Definition status_line (status : nat) (statusText : string) : string :=
  "Failed to fetch weather data: " +:+ pretty status +:+ " " +:+ statusText.

(** The state [fetchData] leaves behind once it has settled: it writes
    [data], [error] and [loading], never the range error. *)
Definition settled (st : State) (d : option (list ChartDataPoint))
    (e : option string) : State :=
  {| data := d; loading := false; error := e;
     dateRangeError := dateRangeError st |}.

(** ** App: handleApplyFilter (lines 318-325)

    The handler does not await [fetchData]; running the program to its end
    follows the work the handler has started until it settles. *)

Context (ABUJA_LATITUDE ABUJA_LONGITUDE : number).

Definition handleApplyFilter (startDate endDate : string) : prog unit :=
  if negb (isValidDateRange Date_parse startDate endDate)
  then setDateRangeError (Some "Start date cannot be after end date.")
  else
    setDateRangeError None;;
    fetchData ABUJA_LATITUDE ABUJA_LONGITUDE startDate endDate.

End Weather.

Arguments Return {number A} a.
Arguments Throw {number A} t.
Arguments Update {number A} u k.
Arguments AwaitFetch {number A} url k.

(** ** Sample environments

    Concrete hosts and payloads on which the definitions above evaluate. *)

Local Open Scope Z_scope.

(** Time zones: UTC, West Africa Time (UTC+1 all year, the zone of the
    default location), and US Eastern time around the start of daylight
    saving time on 2024-03-10 at 07:00 UTC (02:00 local standard time). *)
Definition zone_UTC (t : Z) (isUTC : bool) : Z := 0.
Definition zone_Lagos (t : Z) (isUTC : bool) : Z := msPerHour.
Definition zone_New_York (t : Z) (isUTC : bool) : Z :=
  let transition := 1710054000000 in
  if isUTC
  then if t <? transition then -5 * msPerHour else -4 * msPerHour
  else if t <? transition - 4 * msPerHour then -5 * msPerHour else -4 * msPerHour.

(** 2024-03-10T23:30:00Z, which is 19:30 on 2024-03-10 in New York. *)
Definition evening_of_2024_03_10 : Z := 1710113400000.

(** Numbers written as decimal literals: [mantissa / 10 ^ places]. *)
Record decimal := { mantissa : Z; places : nat }.

Definition decimal_toString (d : decimal) : string :=
  let scale := 10 ^ Z.of_nat (places d) in
  (if mantissa d <? 0 then "-" else "")
    +:+ pretty (Z.abs (mantissa d) / scale)
    +:+ (if places d is O then "" else "." +:+ pad (places d) (Z.abs (mantissa d) mod scale)).

Definition decimal_truthy (d : decimal) : bool := negb (mantissa d =? 0).

#[export] Instance decimal_number : JSNumber decimal :=
  {| number_toString := decimal_toString; number_truthy := decimal_truthy |}.

Definition whole (n : Z) : decimal := {| mantissa := n; places := 0 |}.

(** The coordinates of lines 311-312: 9.0765 and 7.3986. *)
Definition ABUJA_LATITUDE : decimal := {| mantissa := 90765; places := 4 |}.
Definition ABUJA_LONGITUDE : decimal := {| mantissa := 73986; places := 4 |}.

Definition sample_daily : @DailyWeatherData decimal :=
  {| time := ["2024-01-01"; "2024-01-02"];
     temperature_2m_max := [whole 30; whole 31];
     temperature_2m_min := [whole 20; whole 19];
     precipitation_sum := [whole 0; whole 5] |}.

Definition sample_response (d : @DailyWeatherData decimal) : @WeatherApiResponse decimal :=
  {| latitude := ABUJA_LATITUDE; longitude := ABUJA_LONGITUDE;
     generationtime_ms := whole 0; utc_offset_seconds := whole 3600;
     timezone := "Africa/Lagos"; timezone_abbreviation := "WAT";
     elevation := whole 476;
     daily_units :=
       {| units_time := "iso8601"; units_temperature_2m_max := "°C";
          units_temperature_2m_min := "°C"; units_precipitation_sum := "mm" |};
     daily := d |}.

(** A payload of no days. *)
Definition empty_daily : @DailyWeatherData decimal :=
  {| time := []; temperature_2m_max := []; temperature_2m_min := [];
     precipitation_sum := [] |}.

(** A payload whose arrays disagree in length. *)
Definition ragged_daily : @DailyWeatherData decimal :=
  {| time := ["2024-01-01"; "2024-01-02"];
     temperature_2m_max := [whole 30; whole 31; whole 32];
     temperature_2m_min := [whole 20];
     precipitation_sum := [] |}.

(** Networks that answer every request the same way. *)
Definition always (r : result (@Response decimal)) : @Network decimal := λ _, r.

Definition bad_request (body : @json decimal) : @Network decimal :=
  always (inr (Response_failed 400 "Bad Request" (inr body))).

(** The error document Open-Meteo sends, with a given [reason]. *)
Definition error_document (reason : @json decimal) : @json decimal :=
  JObject [("error", JBool true); ("reason", reason)].

Definition offline : @Network decimal :=
  always (inl (ErrorObject "TypeError" "Failed to fetch")).

(** Further samples: a third day, the same days under other metadata, an
    error without a message. *)
Definition third_day : @DailyWeatherData decimal :=
  {| time := ["2024-01-03"];
     temperature_2m_max := [whole 29];
     temperature_2m_min := [whole 18];
     precipitation_sum := [whole 2] |}.

Definition elsewhere (d : @DailyWeatherData decimal) : @WeatherApiResponse decimal :=
  {| latitude := whole 52; longitude := whole 13;
     generationtime_ms := whole 1; utc_offset_seconds := whole 0;
     timezone := "GMT"; timezone_abbreviation := "GMT";
     elevation := whole 38;
     daily_units :=
       {| units_time := "iso8601"; units_temperature_2m_max := "°C";
          units_temperature_2m_min := "°C"; units_precipitation_sum := "mm" |};
     daily := d |}.

Definition silent_failure : @Network decimal := always (inl (ErrorObject "Error" "")).

Definition sample_state : @State decimal :=
  {| data := Some []; loading := false; error := Some "stale";
     dateRangeError := Some "Start date cannot be after end date." |}.

Local Close Scope Z_scope.

(** ** formatChartDate (page.tsx, lines 52-55)

    [toLocaleDateString('en-US', { month: 'short', day: 'numeric' })] prints
    the month and the day of the local time of the date, as in "Mar 10"; an
    invalid date prints as "Invalid Date". *)

Definition month_short (m : Z) : string :=
  match m with
  | 0 => "Jan" | 1 => "Feb" | 2 => "Mar" | 3 => "Apr" | 4 => "May"
  | 5 => "Jun" | 6 => "Jul" | 7 => "Aug" | 8 => "Sep" | 9 => "Oct"
  | 10 => "Nov" | _ => "Dec"
  end%Z.

(** The label of the calendar day that holds time value [t] read as UTC. *)
Definition month_day (t : Z) : string :=
  month_short (MonthFromTime t) +:+ " " +:+ pretty (DateFromTime t).

Definition toLocaleDateString (LocalTZA : Z → bool → Z) (tv : option Z) : string :=
  match tv with
  | None => "Invalid Date"
  | Some t => month_day (LocalTime LocalTZA t)
  end.

Definition formatChartDate (LocalTZA : Z → bool → Z)
    (Date_parse : string → option Z) (dateString : string) : string :=
  let date := Date_of_string Date_parse dateString in
  toLocaleDateString LocalTZA date.

(** ** The default range of App (lines 303-304)

    Two readings of the clock, one per call. *)
Definition defaultEndDate (now : Z) : result string := getTodayDateString now.
Definition defaultStartDate (LocalTZA : Z → bool → Z) (now : Z) : result string :=
  getDateStringDaysAgo LocalTZA now 6.

(** ** Rendering: ChartCard (lines 221-241) and the charts of App
       (lines 362-369), DateRangePicker (lines 199-208) *)

Section Rendering.

Context {number : Type}.

Inductive chart :=
| TemperatureLineChart (points : list (@ChartDataPoint number))
| PrecipitationBarChart (points : list (@ChartDataPoint number)).

(** What a card shows under its title. *)
Inductive card :=
| Spinner
| ErrorPanel (message : string)
| Children (children : option chart).

(** Truthiness of a [string | null]. *)
Definition string_truthy (s : option string) : bool :=
  match s with
  | Some s => negb (String.eqb s "")
  | None => false
  end.

Definition ChartCard (loading : bool) (error : option string)
    (children : option chart) : card :=
  if loading then Spinner
  else if string_truthy error then ErrorPanel (default "" error)
  else Children children.

(** [{data && <TemperatureLineChart data={data} />}] and its sibling: an
    array, empty or not, is truthy. *)
Definition charts (st : @State number) : card * card :=
  (ChartCard (loading st) (error st) (TemperatureLineChart <$> data st),
   ChartCard (loading st) (error st) (PrecipitationBarChart <$> data st)).

(** The Apply button is disabled on an invalid range, and a disabled
    button delivers no click; the range error is shown when truthy. *)
Record picker := {
  disabled : bool;
  errorMessage : option string;
}.

Definition DateRangePicker (Date_parse : string → option Z)
    (startDate endDate : string) (dateRangeError : option string) : picker :=
  {| disabled := negb (isValidDateRange Date_parse startDate endDate);
     errorMessage := if string_truthy dateRangeError then dateRangeError else None |}.

(** ** Calls that overlap

    A call runs until it waits for the network; the rest runs when the
    answer arrives.  Nothing cancels a call that is still waiting. *)

Inductive task (A : Type) : Type :=
| Finished (r : result A)
| Waiting (url : string) (k : result (@Response number) → @prog number A).

Arguments Finished {A} r.
Arguments Waiting {A} url k.

Fixpoint start {A} (m : @prog number A) (st : State) : State * task A :=
  match m with
  | Return a => (st, Finished (inr a))
  | Throw t => (st, Finished (inl t))
  | Update u k => start k (apply_update u st)
  | AwaitFetch url k => (st, Waiting url k)
  end.

Definition resume {A} (t : task A) (answer : result Response) (st : State)
    : State * task A :=
  match t with
  | Finished r => (st, Finished r)
  | Waiting _ k => start (k answer) st
  end.

(** Two calls started one after the other, and the state once both have
    been answered: either the first call is answered first, or the second. *)
Definition overlap_in_order {A} (first second : prog A)
    (answer_first answer_second : result Response) (st : State) : State :=
  let '(st, t1) := start first st in
  let '(st, t2) := start second st in
  let '(st, _) := resume t1 answer_first st in
  let '(st, _) := resume t2 answer_second st in
  st.

Definition overlap_reversed {A} (first second : prog A)
    (answer_first answer_second : result Response) (st : State) : State :=
  let '(st, t1) := start first st in
  let '(st, t2) := start second st in
  let '(st, _) := resume t2 answer_second st in
  let '(st, _) := resume t1 answer_first st in
  st.

(** The state between the two answers of [overlap_reversed]: the second
    call has settled, the first is still waiting. *)
Definition overlap_midway {A} (first second : prog A)
    (answer_second : result Response) (st : State) : State * task A :=
  let '(st, t1) := start first st in
  let '(st, t2) := start second st in
  let '(st, _) := resume t2 answer_second st in
  (st, t1).

(** An answer that makes [fetchData] store records. *)
Definition succeeds (answer : result (@Response number)) : bool :=
  match answer with
  | inr (Response_ok _ _ (inr _)) => true
  | _ => false
  end.

End Rendering.

Arguments Finished {number A} r.
Arguments Waiting {number A} url k.

(** ** Vocabulary for the statements below *)

Section Vocabulary.

Context {number : Type} {Num : JSNumber number}.

(** The invariant of the payload: four columns of one length. *)
Definition equal_lengths (d : @DailyWeatherData number) : Prop :=
  length (temperature_2m_max d) = length (time d) ∧
  length (temperature_2m_min d) = length (time d) ∧
  length (precipitation_sum d) = length (time d).

(** The days of [d1] followed by the days of [d2]. *)
Definition daily_app (d1 d2 : @DailyWeatherData number)
    : @DailyWeatherData number :=
  {| time := time d1 ++ time d2;
     temperature_2m_max := temperature_2m_max d1 ++ temperature_2m_max d2;
     temperature_2m_min := temperature_2m_min d1 ++ temperature_2m_min d2;
     precipitation_sum := precipitation_sum d1 ++ precipitation_sum d2 |}.

(** The message lines 119-139 arrive at for an answer that stores no
    records. *)
Definition failure_message (answer : result (@Response number)) : string :=
  match answer with
  | inl t | inr (Response_ok _ _ (inl t)) => message_of t
  | inr (Response_failed status statusText (inr errorData)) =>
      match property errorData "reason" with
      | Some reason =>
          if truthy (Some reason)
          then match toString reason with
               | inr text => "API Error: " +:+ text
               | inl _ => status_line status statusText
               end
          else status_line status statusText
      | None => status_line status statusText
      end
  | inr (Response_failed status statusText (inl _)) =>
      status_line status statusText
  | inr (Response_ok _ _ (inr _)) => ""
  end.

(** What the rest of a call of [fetchData] writes once its answer has
    arrived: records and [loading] (lines 133, 141), or a message and
    [loading] (lines 136-141). *)
Definition settle (answer : result (@Response number)) (st : @State number)
    : @State number :=
  match answer with
  | inr (Response_ok _ _ (inr apiResponse)) =>
      {| data := Some (transformWeatherData apiResponse); loading := false;
         error := error st; dateRangeError := dateRangeError st |}
  | _ =>
      {| data := data st; loading := false;
         error := Some (failure_message answer);
         dateRangeError := dateRangeError st |}
  end.

(** The state in which a call of [fetchData] waits. *)
Definition waiting_state (st : @State number) : @State number :=
  {| data := None; loading := true; error := None;
     dateRangeError := dateRangeError st |}.

End Vocabulary.

(** ** The page as a whole (lines 301-330)

    [handleApplyFilter] is a [useCallback] over [startDate], [endDate] and
    [fetchData], and the effect of lines 328-330 depends on it: the effect
    runs on mount and again whenever one of the two dates has changed.
    Setting a date to the value it has changes nothing. *)

Module App.

Section Page.

Context {number : Type} {Num : JSNumber number}.
Context (Date_parse : string → option Z).
Context (ABUJA_LATITUDE ABUJA_LONGITUDE : number).

Record Page := {
  startDate : string;
  endDate : string;
  hooks : @State number;
}.

Inductive event :=
| Mount
| StartDateChange (value : string)
| EndDateChange (value : string)
| ApplyClick.

(** The effect: [handleApplyFilter] on the dates of the page, followed
    until it settles. *)
Definition effect (net : Network) (page : Page) : Page * list string :=
  let outcome :=
    run net (handleApplyFilter Date_parse ABUJA_LATITUDE ABUJA_LONGITUDE
               (startDate page) (endDate page)) (hooks page) in
  ({| startDate := startDate page; endDate := endDate page;
      hooks := final outcome |}, requests outcome).

Definition dispatch (net : Network) (ev : event) (page : Page)
    : Page * list string :=
  match ev with
  | Mount => effect net page
  | StartDateChange value =>
      if String.eqb value (startDate page) then (page, [])
      else effect net {| startDate := value; endDate := endDate page;
                         hooks := hooks page |}
  | EndDateChange value =>
      if String.eqb value (endDate page) then (page, [])
      else effect net {| startDate := startDate page; endDate := value;
                         hooks := hooks page |}
  | ApplyClick =>
      if disabled (DateRangePicker Date_parse (startDate page) (endDate page)
                     (dateRangeError (hooks page)))
      then (page, [])
      else effect net page
  end.

(** A session: the page after a list of events, with every request made. *)
Fixpoint session (net : Network) (events : list event) (page : Page)
    : Page * list string :=
  match events with
  | [] => (page, [])
  | ev :: events =>
      let '(page, urls) := dispatch net ev page in
      let '(page', urls') := session net events page in
      (page', urls ++ urls')
  end.

(** The range error agrees with the dates of the page. *)
Definition range_error_agrees (page : Page) : Prop :=
  dateRangeError (hooks page) =
  if isValidDateRange Date_parse (startDate page) (endDate page)
  then None else Some "Start date cannot be after end date.".

End Page.

End App.

(** A page showing the week that ends on 2024-03-10, before its mount. *)
Definition sample_page : @App.Page decimal :=
  {| App.startDate := "2024-03-04"; App.endDate := "2024-03-10";
     App.hooks := initial |}.

(** ** Properties of the transform *)

Section TransformFacts.

Context {number : Type}.
Implicit Types (daily : @DailyWeatherData number).
Implicit Types (apiData : @WeatherApiResponse number).

(** The loop appends one record per remaining index of [time]. *)
Lemma transform_loop_appends daily i transformed :
  transform_loop daily i transformed =
  transformed ++ (point_at daily <$> seq i (length (time daily) - i)).
Proof.
  remember (length (time daily) - i) as k eqn:Hk.
  revert i transformed Hk.
  induction k as [|k IH]; intros i transformed Hk; simp transform_loop;
    destruct (lt_dec i (length (time daily))) as [Hlt|Hge]; simpl; try lia.
  - rewrite app_nil_r. reflexivity.
  - rewrite IH by lia. rewrite <- app_assoc. reflexivity.
Qed.

Lemma transformWeatherData_seq apiData :
  transformWeatherData apiData =
  point_at (daily apiData) <$> seq 0 (length (time (daily apiData))).
Proof.
  unfold transformWeatherData. rewrite transform_loop_appends.
  simpl. rewrite Nat.sub_0_r. reflexivity.
Qed.

Lemma transformWeatherData_length apiData :
  length (transformWeatherData apiData) = length (time (daily apiData)).
Proof.
  rewrite transformWeatherData_seq, length_fmap, length_seq. reflexivity.
Qed.

Lemma transformWeatherData_lookup apiData i :
  i < length (time (daily apiData)) →
  transformWeatherData apiData !! i = Some (point_at (daily apiData) i).
Proof.
  intros Hi. rewrite transformWeatherData_seq, list_lookup_fmap.
  rewrite lookup_seq_lt by exact Hi. reflexivity.
Qed.

(** C1. On a payload whose four arrays all have length [N], the transform
    yields exactly [N] records, and record [i] pairs [time[i]] with the
    minimum, maximum and precipitation at the same index [i], all of them
    defined, in the order of the source arrays. *)
Theorem transformWeatherData_equal_lengths apiData (N : nat) :
  length (time (daily apiData)) = N →
  length (temperature_2m_max (daily apiData)) = N →
  length (temperature_2m_min (daily apiData)) = N →
  length (precipitation_sum (daily apiData)) = N →
  length (transformWeatherData apiData) = N ∧
  ∀ i, i < N →
    ∃ d lo hi p,
      time (daily apiData) !! i = Some d ∧
      temperature_2m_min (daily apiData) !! i = Some lo ∧
      temperature_2m_max (daily apiData) !! i = Some hi ∧
      precipitation_sum (daily apiData) !! i = Some p ∧
      transformWeatherData apiData !! i =
        Some {| date := Some d; minTemp := Some lo; maxTemp := Some hi;
                precipitation := Some p |}.
Proof.
  intros Ht Hmax Hmin Hp. split.
  - rewrite transformWeatherData_length. exact Ht.
  - intros i Hi.
    destruct (lookup_lt_is_Some_2 (time (daily apiData)) i) as [d Hd]; [lia|].
    destruct (lookup_lt_is_Some_2 (temperature_2m_min (daily apiData)) i)
      as [lo Hlo]; [lia|].
    destruct (lookup_lt_is_Some_2 (temperature_2m_max (daily apiData)) i)
      as [hi Hhi]; [lia|].
    destruct (lookup_lt_is_Some_2 (precipitation_sum (daily apiData)) i)
      as [p Hpi]; [lia|].
    exists d, lo, hi, p. repeat split; try assumption.
    rewrite transformWeatherData_lookup by lia.
    unfold point_at. rewrite Hd, Hlo, Hhi, Hpi. reflexivity.
Qed.

(** C9. Whatever the lengths of the other three arrays, the transform emits
    one record per index of [time] and no more: entries of longer arrays
    beyond that length are dropped, and a field read past the end of a
    shorter array is [undefined]; the transform itself returns normally. *)
Theorem transformWeatherData_follows_time apiData :
  length (transformWeatherData apiData) = length (time (daily apiData)) ∧
  (∀ i, i < length (time (daily apiData)) →
     transformWeatherData apiData !! i =
       Some {| date := time (daily apiData) !! i;
               minTemp := temperature_2m_min (daily apiData) !! i;
               maxTemp := temperature_2m_max (daily apiData) !! i;
               precipitation := precipitation_sum (daily apiData) !! i |}) ∧
  (∀ i, length (time (daily apiData)) ≤ i →
     transformWeatherData apiData !! i = None) ∧
  (∀ i r, transformWeatherData apiData !! i = Some r →
     is_Some (date r) ∧
     (length (temperature_2m_min (daily apiData)) ≤ i → minTemp r = None) ∧
     (length (temperature_2m_max (daily apiData)) ≤ i → maxTemp r = None) ∧
     (length (precipitation_sum (daily apiData)) ≤ i → precipitation r = None)).
Proof.
  split; [apply transformWeatherData_length|].
  split; [intros i Hi; rewrite transformWeatherData_lookup by exact Hi; reflexivity|].
  split.
  - intros i Hi. apply lookup_ge_None_2.
    rewrite transformWeatherData_length. exact Hi.
  - intros i r Hr.
    assert (Hi : i < length (time (daily apiData))).
    { rewrite <- transformWeatherData_length. eapply lookup_lt_Some, Hr. }
    rewrite transformWeatherData_lookup in Hr by exact Hi.
    injection Hr as <-. simpl. split; [apply lookup_lt_is_Some_2, Hi|].
    repeat split; intros Hlen; apply lookup_ge_None_2, Hlen.
Qed.

End TransformFacts.

(** ** Properties of the Date model *)

Section DateFacts.

Local Open Scope Z_scope.

(** The executable [YearFromDay] is the year the language specification
    defines: the one whose first day is the last not after [d]. *)
Lemma YearFromDay_spec d :
  DayFromYear (YearFromDay d) <= d < DayFromYear (YearFromDay d + 1).
Proof.
  unfold YearFromDay.
  destruct (Z.ltb_spec d (DayFromYear (1970 + 400 * d / 146097))) as [H1|H1].
  - unfold DayFromYear in *. Z.div_mod_to_equations. lia.
  - destruct (Z.leb_spec (DayFromYear (1970 + 400 * d / 146097 + 1)) d) as [H2|H2].
    + unfold DayFromYear in *. Z.div_mod_to_equations. lia.
    + lia.
Qed.

Lemma DayFromYear_step y : DayFromYear (y + 1) = DayFromYear y + DaysInYear y.
Proof.
  unfold DayFromYear, DaysInYear, is_leap.
  destruct (Z.eqb_spec (y mod 4) 0), (Z.eqb_spec (y mod 100) 0),
    (Z.eqb_spec (y mod 400) 0); simpl; Z.div_mod_to_equations; lia.
Qed.

Lemma DayFromYear_lt y1 y2 : y1 < y2 → DayFromYear y1 < DayFromYear y2.
Proof. unfold DayFromYear. intros H. Z.div_mod_to_equations. lia. Qed.

(** [YearFromDay d] is the only year that contains day [d]. *)
Lemma YearFromDay_unique d y :
  DayFromYear y <= d < DayFromYear (y + 1) → YearFromDay d = y.
Proof.
  intros Hy. pose proof (YearFromDay_spec d) as Hspec.
  destruct (Z.lt_trichotomy (YearFromDay d) y) as [Hlt|[Heq|Hgt]]; [|exact Heq|].
  - destruct (Z.eq_dec (YearFromDay d + 1) y) as [Hnext|Hnext].
    + rewrite Hnext in Hspec. lia.
    + pose proof (DayFromYear_lt (YearFromDay d + 1) y). lia.
  - destruct (Z.eq_dec (y + 1) (YearFromDay d)) as [Hnext|Hnext].
    + rewrite <- Hnext in Hspec. lia.
    + pose proof (DayFromYear_lt (y + 1) (YearFromDay d)). lia.
Qed.

Lemma DayWithinYear_range t :
  0 <= DayWithinYear t < DaysInYear (YearFromTime t).
Proof.
  unfold DayWithinYear, YearFromTime.
  pose proof (YearFromDay_spec (Day t)) as Hspec.
  rewrite DayFromYear_step in Hspec. lia.
Qed.

Lemma month_of_day_within_year_range leap d :
  0 <= month_of_day_within_year leap d <= 11.
Proof.
  unfold month_of_day_within_year.
  repeat match goal with |- context [?a <? ?b] => destruct (a <? b) end; lia.
Qed.

(** Moving the day of the month by [k] moves the day number by [k]:
    [setDate] carries into months and years. *)
Lemma MakeDay_shift t k :
  MakeDay (YearFromTime t) (MonthFromTime t) (DateFromTime t + k) = Day t + k.
Proof.
  unfold MakeDay, DateFromTime.
  pose proof (month_of_day_within_year_range (InLeapYear t) (DayWithinYear t)) as Hm.
  fold (MonthFromTime t) in Hm.
  rewrite (Z.div_small (MonthFromTime t) 12), (Z.mod_small (MonthFromTime t) 12) by lia.
  rewrite Z.add_0_r. fold (InLeapYear t). unfold DayWithinYear. lia.
Qed.

Lemma Day_shift t n : Day (t - n * msPerDay) = Day t - n.
Proof.
  unfold Day, msPerDay.
  replace (t - n * 86400000) with (t + (- n) * 86400000) by lia.
  rewrite Z.div_add by lia. lia.
Qed.

(** The date part of the ISO string depends on the day number only. *)
Lemma iso_date_Day t1 t2 : Day t1 = Day t2 → iso_date t1 = iso_date t2.
Proof.
  intros H.
  unfold iso_date, DateFromTime, MonthFromTime, InLeapYear, DayWithinYear,
    YearFromTime.
  rewrite H. reflexivity.
Qed.

Lemma avoids_app c a b : avoids c (a +:+ b) = avoids c a && avoids c b.
Proof.
  induction a as [|x a IH]; simpl; [reflexivity|].
  rewrite IH. destruct (Ascii.eqb x c); reflexivity.
Qed.

Lemma split_first c a b : avoids c a = true → (split c (a +:+ String c b)).1 = a.
Proof.
  induction a as [|x a IH]; simpl.
  - intros _. destruct (split c b). rewrite Ascii.eqb_refl. reflexivity.
  - intros H. apply andb_prop in H as [Hx Ha]. specialize (IH Ha).
    destruct (split c (a +:+ String c b)) as [piece pieces].
    destruct (Ascii.eqb x c); [discriminate|]. simpl in *. congruence.
Qed.

Lemma digit_avoids_T n : Ascii.eqb (digit n) "T" = false.
Proof.
  unfold digit.
  assert (H : (Z.to_nat (n mod 10) < 10)%nat)
    by (pose proof (Z.mod_pos_bound n 10); lia).
  generalize dependent (Z.to_nat (n mod 10)). intros k Hk.
  do 10 (destruct k as [|k]; [reflexivity|]). lia.
Qed.

Lemma pad_avoids_T width n : avoids "T" (pad width n) = true.
Proof.
  revert n. induction width as [|w IH]; intros n; cbn [pad]; [reflexivity|].
  rewrite avoids_app, IH. cbn [avoids]. rewrite digit_avoids_T. reflexivity.
Qed.

Lemma iso_year_avoids_T y : avoids "T" (iso_year y) = true.
Proof.
  unfold iso_year. destruct (_ && _); [apply pad_avoids_T|].
  rewrite avoids_app, pad_avoids_T.
  destruct (0 <=? y); reflexivity.
Qed.

Lemma iso_date_avoids_T t : avoids "T" (iso_date t) = true.
Proof.
  unfold iso_date.
  rewrite !avoids_app, iso_year_avoids_T, !pad_avoids_T. reflexivity.
Qed.

(** [toISOString().split('T')[0]] is the date part. *)
Lemma iso_split t : (split "T" (iso_date t +:+ "T" +:+ iso_time t)).1 = iso_date t.
Proof. apply split_first, iso_date_avoids_T. Qed.

Section Zone.

Context (LocalTZA : Z → bool → Z).

Lemma getTodayDateString_iso now : getTodayDateString now = inr (iso_date now).
Proof.
  unfold getTodayDateString, Date_now, toISOString.
  rewrite iso_split. reflexivity.
Qed.

(** Where the local offset is the same before and after the move and the
    result is a valid time value, [getDateStringDaysAgo n] is the date of
    the day numbered [n] less than today's, the day whose date
    [getTodayDateString] gives. *)
Lemma getDateStringDaysAgo_fixed_offset now n offset :
  LocalTZA now true = offset →
  LocalTZA (now + offset - n * msPerDay) false = offset →
  Z.abs (now - n * msPerDay) <= 8640000000000000 →
  getDateStringDaysAgo LocalTZA now n = inr (iso_date (now - n * msPerDay)) ∧
  Day (now - n * msPerDay) = Day now - n.
Proof.
  intros Hnow Hthen Hrange. split; [|apply Day_shift].
  unfold getDateStringDaysAgo, Date_now, getDate, number_sub, setDate.
  replace (DateFromTime (LocalTime LocalTZA now) - n)
    with (DateFromTime (LocalTime LocalTZA now) + - n) by lia.
  rewrite MakeDay_shift.
  assert (Hnew : MakeDate (Day (LocalTime LocalTZA now) + - n)
                   (TimeWithinDay (LocalTime LocalTZA now))
                 = now + offset - n * msPerDay).
  { unfold MakeDate, Day, TimeWithinDay, LocalTime. rewrite Hnow.
    pose proof (Z.div_mod (now + offset) msPerDay) as Hdm.
    unfold msPerDay in *. lia. }
  rewrite Hnew. unfold UTC. rewrite Hthen.
  replace (now + offset - n * msPerDay - offset) with (now - n * msPerDay) by lia.
  unfold TimeClip.
  destruct (Z.ltb_spec 8640000000000000 (Z.abs (now - n * msPerDay))); [lia|].
  unfold toISOString. rewrite iso_split. reflexivity.
Qed.

End Zone.

End DateFacts.

(** ** Properties of the date utilities *)

Section RangeFacts.

Context (Date_parse : string → option Z).

Lemma Date_of_string_None dateString :
  Date_parse dateString = None → Date_of_string Date_parse dateString = None.
Proof. unfold Date_of_string. intros ->. reflexivity. Qed.

Lemma isValidDateRange_after startDate endDate ts te :
  Date_of_string Date_parse startDate = Some ts →
  Date_of_string Date_parse endDate = Some te →
  (te < ts)%Z → isValidDateRange Date_parse startDate endDate = false.
Proof.
  unfold isValidDateRange, number_le.
  intros -> -> H. apply Z.leb_gt, H.
Qed.

(** C5. [isValidDateRange start end] is true exactly when both strings
    parse to dates and the start is not after the end; equal dates make a
    valid single-day range, and a start strictly after the end is
    invalid. *)
Theorem isValidDateRange_iff startDate endDate :
  (isValidDateRange Date_parse startDate endDate = true ↔
     ∃ ts te, Date_of_string Date_parse startDate = Some ts ∧
              Date_of_string Date_parse endDate = Some te ∧ (ts ≤ te)%Z) ∧
  (∀ t,
     Date_of_string Date_parse startDate = Some t →
     Date_of_string Date_parse endDate = Some t →
     isValidDateRange Date_parse startDate endDate = true) ∧
  (∀ ts te,
     Date_of_string Date_parse startDate = Some ts →
     Date_of_string Date_parse endDate = Some te →
     (te < ts)%Z → isValidDateRange Date_parse startDate endDate = false).
Proof.
  split; [|split; [|exact (isValidDateRange_after startDate endDate)]].
  all: unfold isValidDateRange, number_le; repeat split.
  - destruct (Date_of_string Date_parse startDate) as [ts|]; [|discriminate].
    destruct (Date_of_string Date_parse endDate) as [te|]; [|discriminate].
    intros H. exists ts, te. repeat split. apply Z.leb_le, H.
  - intros (ts & te & -> & -> & H). apply Z.leb_le, H.
  - intros t -> ->. apply Z.leb_refl.
Qed.

(** C10. [isValidDateRange] is a total function to booleans, and it is
    false as soon as one of the two strings does not parse as a date. *)
Theorem isValidDateRange_unparseable startDate endDate :
  Date_parse startDate = None ∨ Date_parse endDate = None →
  isValidDateRange Date_parse startDate endDate = false.
Proof.
  unfold isValidDateRange, number_le.
  intros [H|H]; rewrite (Date_of_string_None _ H).
  - reflexivity.
  - destruct (Date_of_string Date_parse startDate); reflexivity.
Qed.

End RangeFacts.

(** C6. In New York at 19:30 on 2024-03-10, when the date is 2024-03-10
    both locally and in UTC, [getDateStringDaysAgo 6] is 2024-03-05, not
    2024-03-04: the day is moved back in local time, across the start of
    daylight saving time, and the result is read off in UTC. *)
Theorem getDateStringDaysAgo_across_dst :
  getTodayDateString evening_of_2024_03_10 = inr "2024-03-10" ∧
  iso_date (LocalTime zone_New_York evening_of_2024_03_10) = "2024-03-10" ∧
  getDateStringDaysAgo zone_New_York evening_of_2024_03_10 6 = inr "2024-03-05".
Proof. vm_compute. repeat split. Qed.

(** The example of the specification, in a zone with a fixed offset. *)
Example getDateStringDaysAgo_2024_03_10 :
  getTodayDateString 1710070200000 = inr "2024-03-10" ∧
  getDateStringDaysAgo zone_Lagos 1710070200000 6 = inr "2024-03-04" ∧
  getDateStringDaysAgo zone_UTC 1710070200000 6 = inr "2024-03-04".
Proof. vm_compute. repeat split. Qed.

(** Month and year rollover, leap day included. *)
Example getDateStringDaysAgo_rollover :
  getDateStringDaysAgo zone_Lagos 1709379000000 6 = inr "2024-02-25" ∧
  getDateStringDaysAgo zone_Lagos 1704281400000 6 = inr "2023-12-28" ∧
  getDateStringDaysAgo zone_Lagos 1709379000000 2 = inr "2024-02-29".
Proof. vm_compute. repeat split. Qed.

(** ** Properties of the fetch and of the validation gate *)

Section FetchFacts.

Context {number : Type} {Num : JSNumber number}.
Context (Date_parse : string → option Z).
Context (LATITUDE LONGITUDE : number).

Local Abbreviation handleApplyFilter' :=
  (handleApplyFilter Date_parse LATITUDE LONGITUDE).

Implicit Types (net : @Network number) (st : @State number).
Implicit Types (latitude longitude : number) (startDate endDate : string).

(** Unfolds the program down to its constructors, leaving strings, URLs
    and the transform alone. *)
Ltac step_program :=
  unfold handleApplyFilter, fetchData, fetch,
    setData, setLoading, setError, setDateRangeError, mbind, prog_bind,
    final, requests, completion;
  cbn [run in_flight bind try_catch try_finally await apply_update
       data loading error dateRangeError fst snd].

Lemma error_message_returns status statusText body :
  ∃ msg, error_message status statusText body
         = Return msg ∧
    msg = match body with
          | inr errorData =>
              match property errorData "reason" with
              | Some reason =>
                  if truthy (Some reason)
                  then match toString reason with
                       | inr text => "API Error: " +:+ text
                       | inl _ => status_line status statusText
                       end
                  else status_line status statusText
              | None => status_line status statusText
              end
          | inl _ => status_line status statusText
          end.
Proof.
  unfold error_message, status_line, mbind, prog_bind.
  destruct body as [t|errorData]; cbn [await bind try_catch]; [eauto|].
  destruct (property errorData "reason") as [reason|] eqn:Hreason.
  - assert (Hdata : truthy (Some errorData) = true)
      by (destruct errorData; try discriminate; reflexivity).
    rewrite Hdata. cbn [andb].
    destruct (truthy (Some reason)); cbn [try_catch]; eauto.
    destruct (toString reason) as [t|text]; cbn [await bind try_catch]; eauto.
  - change (truthy None) with false. rewrite andb_false_r.
    cbn [try_catch]. eauto.
Qed.

(** What one call of [fetchData] does, by what the network answers. *)
Lemma run_fetchData net latitude longitude startDate endDate st :
  ∃ d e,
    run net (fetchData latitude longitude startDate endDate) st =
      (settled st d e, [apiUrl latitude longitude startDate endDate], inr tt) ∧
    match net (apiUrl latitude longitude startDate endDate) with
    | inl t | inr (Response_ok _ _ (inl t)) =>
        d = None ∧ e = Some (message_of t)
    | inr (Response_ok _ _ (inr apiResponse)) =>
        d = Some (transformWeatherData apiResponse) ∧ e = None
    | inr (Response_failed status statusText body) =>
        d = None ∧
        ∃ msg, e = Some msg ∧
          error_message status statusText body
          = Return msg
    end.
Proof.
  step_program.
  destruct (net _) as [t|[status statusText [t|apiResponse]|status statusText body]];
    step_program.
  - destruct t; step_program; eauto.
  - destruct t; step_program; eauto.
  - eauto.
  - destruct (error_message_returns status statusText body) as (msg & Hmsg & _).
    rewrite Hmsg. step_program. exists None, (Some msg). eauto 6.
Qed.

(** C2, as the code has it.  Whatever the network answers, a call of
    [fetchData] settles normally with [loading = false] and exactly one of
    [data] and [error] present, that is, not null.  On an ok response whose
    body parses, the records are stored, one for each entry of the payload's
    [time] array (none for a payload of no days), and [error] stays absent.
    Otherwise [data] stays absent and a message is stored: for a response
    that is not ok, "API Error: " followed by a text or the status line,
    never empty; for a failed request or an unparseable body, the message
    of the error, empty if that is empty. *)
Theorem fetchData_settles net latitude longitude startDate endDate st :
  let outcome := run net (fetchData latitude longitude startDate endDate) st in
  completion outcome = inr tt ∧
  loading (final outcome) = false ∧
  ((is_Some (data (final outcome)) ∧ error (final outcome) = None) ∨
   (data (final outcome) = None ∧ is_Some (error (final outcome)))) ∧
  match net (apiUrl latitude longitude startDate endDate) with
  | inr (Response_ok _ _ (inr apiResponse)) =>
      data (final outcome) = Some (transformWeatherData apiResponse) ∧
      length (transformWeatherData apiResponse)
        = length (time (daily apiResponse)) ∧
      error (final outcome) = None
  | inr (Response_failed status statusText body) =>
      data (final outcome) = None ∧
      ∃ message,
        error (final outcome) = Some message ∧
        message ≠ "" ∧
        ((∃ text, message = "API Error: " +:+ text) ∨
         message = "Failed to fetch weather data: " +:+ pretty status
                   +:+ " " +:+ statusText)
  | inl t | inr (Response_ok _ _ (inl t)) =>
      data (final outcome) = None ∧
      error (final outcome) =
        Some match t with
             | ErrorObject _ message => message
             | OtherValue _ => "An unknown error occurred."
             end
  end.
Proof.
  cbv zeta.
  destruct (run_fetchData net latitude longitude startDate endDate st)
    as (d & e & -> & H).
  unfold completion, final, settled. cbn [fst snd data loading error].
  split; [reflexivity|]. split; [reflexivity|].
  destruct (net _) as [t|[status statusText [t|apiResponse]|status statusText body]].
  - destruct H as [-> ->]. split; [eauto|]. destruct t; auto.
  - destruct H as [-> ->]. split; [eauto|]. destruct t; auto.
  - destruct H as [-> ->]. split; [eauto|].
    split; [reflexivity|]. split; [apply transformWeatherData_length|reflexivity].
  - destruct H as (-> & msg & -> & Hmsg). split; [eauto|].
    split; [reflexivity|]. exists msg. split; [reflexivity|].
    destruct (error_message_returns status statusText body) as (msg' & Hmsg' & Hcase).
    rewrite Hmsg in Hmsg'. injection Hmsg' as <-.
    assert (Hshape : (∃ text, msg = "API Error: " +:+ text) ∨
                     msg = status_line status statusText).
    { destruct body as [t|errorData]; [auto|].
      destruct (property errorData "reason") as [reason|]; [|auto].
      destruct (truthy (Some reason)); [|auto].
      destruct (toString reason) as [t|text]; [auto|]. left. eauto. }
    split; [|exact Hshape].
    destruct Hshape as [[text ->]| ->]; discriminate.
Qed.

(** C3, as the code has it.  For a response that is not ok: when the body
    parses as JSON and has a [reason] member that is truthy and converts to
    a string, the message is "API Error: " followed by that string (for a
    string reason, the reason itself); when the body does not parse, has no
    [reason] member, has one that is falsy (null, false, zero, the empty
    string), or has one whose conversion to a string throws (an object
    with a member named toString, or an array that holds one), the message
    is "Failed to fetch weather data: " followed by the status code, a
    space and the status text. *)
Theorem fetchData_failed_response_message
    net latitude longitude startDate endDate st status statusText body :
  net (apiUrl latitude longitude startDate endDate)
    = inr (Response_failed status statusText body) →
  let st' := final (run net (fetchData latitude longitude startDate endDate) st) in
  let fallback :=
    "Failed to fetch weather data: " +:+ pretty status +:+ " " +:+ statusText in
  (∀ errorData reason text,
     body = inr errorData → property errorData "reason" = Some reason →
     truthy (Some reason) = true → toString reason = inr text →
     error st' = Some ("API Error: " +:+ text)) ∧
  (∀ errorData s,
     body = inr errorData → property errorData "reason" = Some (JString s) →
     s ≠ "" →
     error st' = Some ("API Error: " +:+ s)) ∧
  (∀ errorData reason t,
     body = inr errorData → property errorData "reason" = Some reason →
     toString reason = inl t →
     error st' = Some fallback) ∧
  (∀ errorData members value,
     body = inr errorData →
     property errorData "reason" = Some (JObject members) →
     member "toString" members = Some value →
     error st' = Some fallback) ∧
  (∀ errorData reason,
     body = inr errorData → property errorData "reason" = Some reason →
     truthy (Some reason) = false →
     error st' = Some fallback) ∧
  (∀ errorData,
     body = inr errorData → property errorData "reason" = None →
     error st' = Some fallback) ∧
  (∀ t, body = inl t → error st' = Some fallback).
Proof.
  intros Hnet. cbv zeta.
  destruct (run_fetchData net latitude longitude startDate endDate st)
    as (d & e & -> & H).
  rewrite Hnet in H. destruct H as (-> & msg & -> & Hmsg).
  destruct (error_message_returns status statusText body) as (msg' & Hmsg' & Hcase).
  rewrite Hmsg in Hmsg'. injection Hmsg' as <-.
  unfold final, settled, status_line in *. cbn [fst snd error].
  assert (Hthrows : ∀ errorData reason t,
            body = inr errorData → property errorData "reason" = Some reason →
            toString reason = inl t →
            Some msg = Some ("Failed to fetch weather data: " +:+ pretty status
                             +:+ " " +:+ statusText)).
  { intros errorData reason t -> Hreason Hthrown.
    rewrite Hreason, Hthrown in Hcase.
    destruct (truthy (Some reason)); congruence. }
  repeat split.
  - intros errorData reason text -> Hreason Htruthy Htext.
    rewrite Hreason, Htruthy, Htext in Hcase. congruence.
  - intros errorData s -> Hreason Hs.
    rewrite Hreason in Hcase. cbn [truthy toString] in Hcase.
    destruct (String.eqb_spec s ""); [contradiction|].
    cbn [negb] in Hcase. congruence.
  - exact Hthrows.
  - intros errorData members value Hbody Hreason Hmember.
    apply (Hthrows errorData (JObject members) not_primitive Hbody Hreason).
    cbn [toString]. rewrite Hmember. reflexivity.
  - intros errorData reason -> Hreason Hfalsy.
    rewrite Hreason, Hfalsy in Hcase. congruence.
  - intros errorData -> Hreason. rewrite Hreason in Hcase. congruence.
  - intros t ->. congruence.
Qed.

(** C4. [fetchData] never completes by throwing.  When the request itself
    fails, or the body of an ok response fails to parse, the stored message
    is the [message] of the error that was raised, or the fixed text
    "An unknown error occurred." when what was raised is not an [Error];
    [data] stays absent and [loading] ends false. *)
Theorem fetchData_transport_failure net latitude longitude startDate endDate st :
  let url := apiUrl latitude longitude startDate endDate in
  let outcome := run net (fetchData latitude longitude startDate endDate) st in
  completion outcome = inr tt ∧
  ∀ t,
    net url = inl t ∨
    (∃ status statusText, net url = inr (Response_ok status statusText (inl t))) →
    error (final outcome) =
      Some match t with
           | ErrorObject _ message => message
           | OtherValue _ => "An unknown error occurred."
           end ∧
    data (final outcome) = None ∧
    loading (final outcome) = false.
Proof.
  cbv zeta.
  destruct (run_fetchData net latitude longitude startDate endDate st)
    as (d & e & -> & H).
  unfold completion, final, settled. cbn [fst snd data loading error].
  split; [reflexivity|].
  intros t [Hnet|(status & statusText & Hnet)]; rewrite Hnet in H;
    destruct H as [-> ->]; auto.
Qed.

(** C8. When [fetchData] suspends on its request, the state has been
    reset: no data, no error, [loading = true]; the request is the first
    thing the call waits on. *)
Theorem fetchData_resets_before_request latitude longitude startDate endDate st :
  in_flight (fetchData latitude longitude startDate endDate) st =
  Some (apiUrl latitude longitude startDate endDate,
        {| data := None; loading := true; error := None;
           dateRangeError := dateRangeError st |}).
Proof. step_program. reflexivity. Qed.

(** C7. With a start date after the end date, [handleApplyFilter] stores
    the range error in its own field, leaves the fetch state alone and
    issues no request.  A request is issued only when
    [isValidDateRange] holds, and then the range error is cleared. *)
Theorem handleApplyFilter_gate net startDate endDate st :
  let outcome := run net (handleApplyFilter' startDate endDate) st in
  (∀ ts te,
     Date_of_string Date_parse startDate = Some ts →
     Date_of_string Date_parse endDate = Some te →
     (te < ts)%Z →
     dateRangeError (final outcome) = Some "Start date cannot be after end date." ∧
     data (final outcome) = data st ∧
     loading (final outcome) = loading st ∧
     error (final outcome) = error st ∧
     requests outcome = [] ∧
     in_flight (handleApplyFilter' startDate endDate) st = None) ∧
  (requests outcome ≠ [] → isValidDateRange Date_parse startDate endDate = true) ∧
  (isValidDateRange Date_parse startDate endDate = true →
     dateRangeError (final outcome) = None ∧
     requests outcome = [apiUrl LATITUDE LONGITUDE startDate endDate]).
Proof.
  cbv zeta. unfold handleApplyFilter.
  destruct (isValidDateRange Date_parse startDate endDate) eqn:Hvalid; cbn [negb].
  - split; [|split; [reflexivity|]].
    + intros ts te Hs He Hlt.
      rewrite (isValidDateRange_after Date_parse _ _ ts te Hs He Hlt) in Hvalid.
      discriminate.
    + intros _. unfold mbind, prog_bind, setDateRangeError. cbn [bind run].
      destruct (run_fetchData net LATITUDE LONGITUDE startDate endDate
                  (apply_update (SetDateRangeError None) st))
        as (d & e & -> & _).
      unfold final, requests, settled.
      cbn [fst snd dateRangeError apply_update]. auto.
  - split; [|split; [|discriminate]].
    + intros _ _ _ _ _. step_program. destruct st; auto 10.
    + step_program. congruence.
Qed.

End FetchFacts.

(** ** The theorems at concrete inputs *)

(** The example of the specification: two days, four arrays of length 2. *)
Example transformWeatherData_sample :
  transformWeatherData (sample_response sample_daily) =
  [ {| date := Some "2024-01-01"; minTemp := Some (whole 20);
       maxTemp := Some (whole 30); precipitation := Some (whole 0) |};
    {| date := Some "2024-01-02"; minTemp := Some (whole 19);
       maxTemp := Some (whole 31); precipitation := Some (whole 5) |} ].
Proof. reflexivity. Qed.

Lemma transformWeatherData_equal_lengths_witness :
  length (transformWeatherData (sample_response sample_daily)) = 2 ∧
  ∀ i, i < 2 →
    ∃ d lo hi p,
      time sample_daily !! i = Some d ∧
      temperature_2m_min sample_daily !! i = Some lo ∧
      temperature_2m_max sample_daily !! i = Some hi ∧
      precipitation_sum sample_daily !! i = Some p ∧
      transformWeatherData (sample_response sample_daily) !! i =
        Some {| date := Some d; minTemp := Some lo; maxTemp := Some hi;
                precipitation := Some p |}.
Proof.
  apply (transformWeatherData_equal_lengths (sample_response sample_daily) 2);
    reflexivity.
Defined.

Lemma transformWeatherData_follows_time_witness :
  length (transformWeatherData (sample_response ragged_daily)) = 2 ∧
  transformWeatherData (sample_response ragged_daily) !! 1 =
    Some {| date := Some "2024-01-02"; minTemp := None;
            maxTemp := Some (whole 31); precipitation := None |} ∧
  transformWeatherData (sample_response ragged_daily) !! 2 = None.
Proof.
  destruct (transformWeatherData_follows_time (sample_response ragged_daily))
    as (Hlength & Hlookup & Hbeyond & _).
  split; [exact Hlength|]. split.
  - apply (Hlookup 1). simpl. lia.
  - apply (Hbeyond 2). simpl. lia.
Defined.

Section Samples.

Local Abbreviation fetchData_sample :=
  (fetchData ABUJA_LATITUDE ABUJA_LONGITUDE "2024-03-04" "2024-03-10").
Local Abbreviation apply_sample :=
  (handleApplyFilter parse_date_only ABUJA_LATITUDE ABUJA_LONGITUDE).

(** C2 fails as stated: an ok response with a payload of no days settles
    with an empty array as data and no error, so that neither the data nor
    the error is non-empty. *)
Lemma zero_day_counterexample :
  let net := always (inr (Response_ok 200 "OK" (inr (sample_response empty_daily)))) in
  let st' := final (run net fetchData_sample initial) in
  loading st' = false ∧
  data st' = Some [] ∧
  error st' = None ∧
  ¬ ((∃ records, data st' = Some records ∧ records ≠ []) ∨
     (∃ message, error st' = Some message ∧ message ≠ "")).
Proof.
  vm_compute. repeat split.
  intros [(records & Hdata & Hrecords)|(message & Herror & _)].
  - injection Hdata as <-. contradiction.
  - discriminate.
Qed.

(** A status 400 with body [{"error":true,"reason":"bad coordinates"}]. *)
Lemma fetchData_failed_response_message_witness :
  property (error_document (JString "bad coordinates")) "reason"
    = Some (JString "bad coordinates") ∧
  error (final (run (bad_request (error_document (JString "bad coordinates")))
                  fetchData_sample initial))
    = Some "API Error: bad coordinates".
Proof.
  split; [reflexivity|].
  destruct (fetchData_failed_response_message
              (bad_request (error_document (JString "bad coordinates")))
              ABUJA_LATITUDE ABUJA_LONGITUDE "2024-03-04" "2024-03-10" initial
              400 "Bad Request" (inr (error_document (JString "bad coordinates")))
              eq_refl) as (Hreason & _).
  exact (Hreason _ (JString "bad coordinates") "bad coordinates"
           eq_refl eq_refl eq_refl eq_refl).
Defined.

(** A status 400 with body [{"error":true,"reason":{"toString":1}}]: the
    reason is truthy, its conversion throws, and the status line stays. *)
Example fetchData_sample_unprintable_reason :
  let reason := JObject [("toString", JNumber (whole 1))] in
  truthy (Some reason) = true ∧
  toString reason = inl not_primitive ∧
  error (final (run (bad_request (error_document reason)) fetchData_sample initial))
    = Some "Failed to fetch weather data: 400 Bad Request" ∧
  toString (JArray [JNumber (whole 1); JNull; JString "x"]) = inr "1,,x" ∧
  toString (JArray [JString "x"; reason]) = inl not_primitive ∧
  toString (JObject [("reason", JString "x")]) = inr "[object Object]".
Proof. vm_compute. repeat split. Qed.

(** C3 fails as stated: the body [{"error":true,"reason":""}] has a
    [reason] member, yet the message stored is the status line, not
    "API Error: " followed by that reason. *)
Lemma empty_reason_counterexample :
  let body := error_document (JString "") in
  let st' := final (run (bad_request body) fetchData_sample initial) in
  property body "reason" = Some (JString "") ∧
  error st' = Some "Failed to fetch weather data: 400 Bad Request" ∧
  toString (JString "") = inr "" ∧
  error st' ≠ Some ("API Error: " +:+ "").
Proof. vm_compute. repeat split. discriminate. Qed.

Lemma fetchData_transport_failure_witness :
  error (final (run offline fetchData_sample sample_state)) = Some "Failed to fetch" ∧
  data (final (run offline fetchData_sample sample_state)) = None ∧
  loading (final (run offline fetchData_sample sample_state)) = false.
Proof.
  destruct (fetchData_transport_failure offline
              ABUJA_LATITUDE ABUJA_LONGITUDE "2024-03-04" "2024-03-10" sample_state)
    as [_ Hfailure].
  apply (Hfailure (ErrorObject "TypeError" "Failed to fetch")).
  left. reflexivity.
Defined.

Lemma isValidDateRange_iff_witness :
  isValidDateRange parse_date_only "2024-03-04" "2024-03-10" = true ∧
  isValidDateRange parse_date_only "2024-03-10" "2024-03-10" = true ∧
  isValidDateRange parse_date_only "2024-03-10" "2024-03-04" = false.
Proof.
  split; [|split].
  - apply (isValidDateRange_iff parse_date_only "2024-03-04" "2024-03-10").
    exists 1709510400000%Z, 1710028800000%Z. repeat split. vm_compute. discriminate.
  - apply (isValidDateRange_iff parse_date_only "2024-03-10" "2024-03-10")
      with (t := 1710028800000%Z); reflexivity.
  - apply (isValidDateRange_iff parse_date_only "2024-03-10" "2024-03-04")
      with (ts := 1710028800000%Z) (te := 1709510400000%Z); reflexivity.
Defined.

Lemma isValidDateRange_unparseable_witness :
  isValidDateRange parse_date_only "" "2024-03-10" = false ∧
  isValidDateRange parse_date_only "2024-03-04" "10 March" = false.
Proof.
  split.
  - apply (isValidDateRange_unparseable parse_date_only "" "2024-03-10").
    left. reflexivity.
  - apply (isValidDateRange_unparseable parse_date_only "2024-03-04" "10 March").
    right. reflexivity.
Defined.

(** Start 2024-03-10, end 2024-03-04: the range error and no request. *)
Lemma handleApplyFilter_gate_witness :
  dateRangeError (final (run offline (apply_sample "2024-03-10" "2024-03-04") initial))
    = Some "Start date cannot be after end date." ∧
  error (final (run offline (apply_sample "2024-03-10" "2024-03-04") initial)) = None ∧
  requests (run offline (apply_sample "2024-03-10" "2024-03-04") initial) = [].
Proof.
  destruct (handleApplyFilter_gate parse_date_only
              ABUJA_LATITUDE ABUJA_LONGITUDE offline "2024-03-10" "2024-03-04" initial)
    as (Hafter & _ & _).
  destruct (Hafter 1710028800000%Z 1709510400000%Z eq_refl eq_refl eq_refl)
    as (Hrange & _ & _ & Herror & Hrequests & _).
  split; [exact Hrange|]. split; [exact Herror|exact Hrequests].
Defined.

(** One successful load from a stale state. *)
Example fetchData_sample_success :
  run (always (inr (Response_ok 200 "OK" (inr (sample_response sample_daily)))))
      fetchData_sample sample_state
  = ({| data := Some (transformWeatherData (sample_response sample_daily));
        loading := false; error := None;
        dateRangeError := Some "Start date cannot be after end date." |},
     ["https://api.open-meteo.com/v1/forecast?latitude=9.0765&longitude=7.3986&daily=temperature_2m_max,temperature_2m_min,precipitation_sum&timezone=auto&start_date=2024-03-04&end_date=2024-03-10"],
     inr tt).
Proof. vm_compute. reflexivity. Qed.

(** A status 500 whose body is not JSON. *)
Example fetchData_sample_unparsable :
  error (final (run (always (inr (Response_failed 500 "Internal Server Error"
                       (inl (ErrorObject "SyntaxError" "Unexpected token <")))))
                  fetchData_sample initial))
  = Some "Failed to fetch weather data: 500 Internal Server Error".
Proof. vm_compute. reflexivity. Qed.

End Samples.

(** ** Further properties of the transform *)

Section TransformMore.

Context {number : Type}.
Implicit Types (a b c : @WeatherApiResponse number).

Lemma transformWeatherData_point a b i :
  transformWeatherData a = transformWeatherData b →
  i < length (time (daily a)) →
  point_at (daily a) i = point_at (daily b) i.
Proof.
  intros Heq Hi.
  assert (Hlen : length (time (daily b)) = length (time (daily a))).
  { rewrite <- !transformWeatherData_length, Heq. reflexivity. }
  pose proof (transformWeatherData_lookup a i Hi) as Ha.
  rewrite Heq, transformWeatherData_lookup in Ha by lia.
  congruence.
Qed.

(** X1.  On payloads that keep the invariant the reshaping loses nothing: two
    payloads with the same records have the same four columns. *)
Theorem transformWeatherData_injective a b :
  equal_lengths (daily a) → equal_lengths (daily b) →
  transformWeatherData a = transformWeatherData b →
  daily a = daily b.
Proof.
  intros (Ha1 & Ha2 & Ha3) (Hb1 & Hb2 & Hb3) Heq.
  assert (Hlen : length (time (daily b)) = length (time (daily a))).
  { rewrite <- !transformWeatherData_length, Heq. reflexivity. }
  assert (Hcol : ∀ {A} (f : @DailyWeatherData number → list A)
                   (g : @ChartDataPoint number → option A),
             (∀ d i, g (point_at d i) = f d !! i) →
             length (f (daily a)) = length (time (daily a)) →
             length (f (daily b)) = length (time (daily b)) →
             f (daily a) = f (daily b)).
  { intros A f g Hg Hfa Hfb. apply list_eq. intros i.
    destruct (decide (i < length (time (daily a)))) as [Hi|Hi].
    - rewrite <- !Hg. f_equal. apply transformWeatherData_point; assumption.
    - rewrite !lookup_ge_None_2 by lia. reflexivity. }
  pose proof (Hcol _ time date (λ _ _, eq_refl) eq_refl eq_refl) as Ht.
  pose proof (Hcol _ temperature_2m_max maxTemp (λ _ _, eq_refl) Ha1 Hb1) as Hmax.
  pose proof (Hcol _ temperature_2m_min minTemp (λ _ _, eq_refl) Ha2 Hb2) as Hmin.
  pose proof (Hcol _ precipitation_sum precipitation (λ _ _, eq_refl) Ha3 Hb3) as Hp.
  destruct (daily a), (daily b). simpl in *. congruence.
Qed.

(** X2.  Days appended to a payload that keeps the invariant append their
    records: the transform of the joined payload is the two transforms
    joined. *)
Theorem transformWeatherData_app a b c :
  equal_lengths (daily a) →
  daily c = daily_app (daily a) (daily b) →
  transformWeatherData c = transformWeatherData a ++ transformWeatherData b.
Proof.
  intros (H1 & H2 & H3) Hc. apply list_eq. intros i.
  assert (Hlenc : length (time (daily c))
                  = length (time (daily a)) + length (time (daily b))).
  { rewrite Hc. simpl. apply length_app. }
  destruct (decide (i < length (time (daily a)))) as [Hi|Hi].
  - rewrite lookup_app_l by (rewrite transformWeatherData_length; exact Hi).
    rewrite !transformWeatherData_lookup by lia.
    f_equal. unfold point_at. rewrite Hc. simpl.
    rewrite !lookup_app_l by lia. reflexivity.
  - rewrite lookup_app_r by (rewrite transformWeatherData_length; lia).
    rewrite transformWeatherData_length.
    destruct (decide (i < length (time (daily c)))) as [Hic|Hic].
    + rewrite !transformWeatherData_lookup by lia.
      f_equal. unfold point_at. rewrite Hc. simpl.
      rewrite !lookup_app_r by lia. rewrite H1, H2, H3. reflexivity.
    + rewrite !lookup_ge_None_2 by (rewrite transformWeatherData_length; lia).
      reflexivity.
Qed.

End TransformMore.

(** ** Further properties of the fetch: what is stored, what is shown,
       and calls that overlap *)

Section FetchMore.

Context {number : Type} {Num : JSNumber number}.

Implicit Types (net : @Network number) (st : @State number).
Implicit Types (latitude longitude : number) (startDate endDate : string).
Implicit Types (answer : result (@Response number)).

Ltac unfold_call :=
  unfold fetchData, fetch, setData, setLoading, setError, mbind, prog_bind;
  cbn [run start resume in_flight bind try_catch try_finally await
       apply_update].

(** The message of a failed response is what [failure_message] says, and
    it is never empty. *)
Lemma error_message_is status statusText body :
  error_message status statusText body
  = Return (failure_message (inr (Response_failed status statusText body))).
Proof.
  destruct (error_message_returns status statusText body) as (msg & -> & ->).
  destruct body as [t|errorData]; reflexivity.
Qed.

Lemma failure_message_failed_nonempty status statusText body :
  string_truthy
    (Some (failure_message (inr (@Response_failed number status statusText body))))
  = true.
Proof.
  unfold string_truthy, failure_message, status_line.
  destruct body as [t|errorData]; [reflexivity|].
  destruct (property errorData "reason") as [reason|]; [|reflexivity].
  destruct (truthy (Some reason)); [|reflexivity].
  destruct (toString reason); reflexivity.
Qed.

Lemma fetchData_task latitude longitude startDate endDate st :
  ∃ k, start (fetchData latitude longitude startDate endDate) st
       = (waiting_state st,
          Waiting (apiUrl latitude longitude startDate endDate) k) ∧
       ∀ answer st', start (k answer) st' = (settle answer st', Finished (inr tt)).
Proof.
  unfold_call. eexists. split; [reflexivity|].
  intros [t|[status statusText [t|apiResponse]|status statusText body]] st';
    unfold_call.
  - destruct t; reflexivity.
  - destruct t; reflexivity.
  - reflexivity.
  - rewrite error_message_is. unfold_call. reflexivity.
Qed.

Lemma run_start {A} (m : @prog number A) net st :
  run net m st =
  match start m st with
  | (st', Finished r) => (st', [], r)
  | (st', Waiting url k) =>
      let '(st'', urls, r) := run net (k (net url)) st' in (st'', url :: urls, r)
  end.
Proof.
  revert st. induction m as [a|t|u k IH|url k IH]; intros st; cbn [run start];
    try reflexivity.
  apply IH.
Qed.

Lemma run_fetchData_settle net latitude longitude startDate endDate st :
  run net (fetchData latitude longitude startDate endDate) st =
  (settle (net (apiUrl latitude longitude startDate endDate)) (waiting_state st),
   [apiUrl latitude longitude startDate endDate], inr tt).
Proof.
  rewrite run_start.
  destruct (fetchData_task latitude longitude startDate endDate st)
    as (k & -> & Hk).
  rewrite run_start, Hk. reflexivity.
Qed.

(** X3.  A call of [fetchData] forgets what was there: from any two states it
    ends with the same data, error and loading flag, having made the one
    request, and it leaves the range error as it found it. *)
Theorem fetchData_forgets_history
    net latitude longitude startDate endDate st1 st2 :
  let o1 := run net (fetchData latitude longitude startDate endDate) st1 in
  let o2 := run net (fetchData latitude longitude startDate endDate) st2 in
  data (final o1) = data (final o2) ∧
  error (final o1) = error (final o2) ∧
  loading (final o1) = loading (final o2) ∧
  requests o1 = [apiUrl latitude longitude startDate endDate] ∧
  requests o2 = requests o1 ∧
  dateRangeError (final o1) = dateRangeError st1.
Proof.
  cbv zeta. rewrite !run_fetchData_settle.
  unfold final, requests, settle, waiting_state. cbn [fst snd].
  destruct (net _) as [t|[status statusText [t|apiResponse]|status statusText body]];
    cbn [data error loading dateRangeError]; auto 10.
Qed.

(** X4.  While a call waits for its answer both cards show the spinner,
    whatever they showed before. *)
Theorem charts_while_waiting latitude longitude startDate endDate st :
  ∃ st', in_flight (fetchData latitude longitude startDate endDate) st
         = Some (apiUrl latitude longitude startDate endDate, st') ∧
         charts st' = (Spinner, Spinner).
Proof. unfold_call. eexists. split; reflexivity. Qed.

(** X5.  Once a call has settled: records arrived, and each card shows its
    chart of them; or a response that is not ok arrived, and both cards
    show the error panel with its message, which is never empty; or the
    request or the parsing failed with a message that is not empty, and
    both cards show the error panel with that message. *)
Theorem charts_after_fetchData net latitude longitude startDate endDate st :
  let st' := final (run net (fetchData latitude longitude startDate endDate) st) in
  match net (apiUrl latitude longitude startDate endDate) with
  | inr (Response_ok _ _ (inr apiResponse)) =>
      charts st' =
        (Children (Some (TemperatureLineChart (transformWeatherData apiResponse))),
         Children (Some (PrecipitationBarChart (transformWeatherData apiResponse))))
  | inr (Response_failed status statusText body) =>
      ∃ message,
        error st' = Some message ∧ message ≠ "" ∧
        charts st' = (ErrorPanel message, ErrorPanel message)
  | inl t | inr (Response_ok _ _ (inl t)) =>
      message_of t ≠ "" →
      charts st' = (ErrorPanel (message_of t), ErrorPanel (message_of t))
  end.
Proof.
  cbv zeta. rewrite run_fetchData_settle.
  unfold final, charts, ChartCard, settle, waiting_state. cbn [fst snd].
  destruct (net _) as [t|[status statusText [t|apiResponse]|status statusText body]];
    cbn [data error loading failure_message default].
  - intros Hne. unfold string_truthy.
    destruct (String.eqb_spec (message_of t) ""); [contradiction|reflexivity].
  - intros Hne. unfold string_truthy.
    destruct (String.eqb_spec (message_of t) ""); [contradiction|reflexivity].
  - reflexivity.
  - pose proof (failure_message_failed_nonempty status statusText body) as Hne.
    cbn [failure_message] in Hne. rewrite Hne. eexists. split; [reflexivity|].
    split; [|reflexivity].
    unfold string_truthy in Hne. intros Heq. rewrite Heq in Hne. discriminate.
Qed.

(** X6.  An error whose message is empty leaves both cards empty: the message
    is stored, and it is falsy, so the cards show neither the spinner nor
    the error panel nor a chart. *)
Theorem charts_blank_on_empty_message
    net latitude longitude startDate endDate st name :
  net (apiUrl latitude longitude startDate endDate) = inl (ErrorObject name "") ∨
  (∃ status statusText,
     net (apiUrl latitude longitude startDate endDate)
     = inr (Response_ok status statusText (inl (ErrorObject name "")))) →
  let st' := final (run net (fetchData latitude longitude startDate endDate) st) in
  error st' = Some "" ∧ data st' = None ∧ loading st' = false ∧
  charts st' = (Children None, Children None).
Proof.
  cbv zeta. rewrite run_fetchData_settle.
  intros [-> | (status & statusText & ->)]; repeat split.
Qed.

Lemma overlap_in_order_settle a b c d a' b' c' d' answer_first answer_second st :
  overlap_in_order (fetchData a b c d) (fetchData a' b' c' d')
    answer_first answer_second st
  = settle answer_second (settle answer_first (waiting_state (waiting_state st))).
Proof.
  unfold overlap_in_order.
  destruct (fetchData_task a b c d st) as (k1 & -> & Hk1).
  destruct (fetchData_task a' b' c' d' (waiting_state st)) as (k2 & -> & Hk2).
  cbn [resume]. rewrite Hk1. cbn [resume]. rewrite Hk2. reflexivity.
Qed.

Lemma overlap_reversed_settle a b c d a' b' c' d' answer_first answer_second st :
  overlap_reversed (fetchData a b c d) (fetchData a' b' c' d')
    answer_first answer_second st
  = settle answer_first (settle answer_second (waiting_state (waiting_state st))).
Proof.
  unfold overlap_reversed.
  destruct (fetchData_task a b c d st) as (k1 & -> & Hk1).
  destruct (fetchData_task a' b' c' d' (waiting_state st)) as (k2 & -> & Hk2).
  cbn [resume]. rewrite Hk2. cbn [resume]. rewrite Hk1. reflexivity.
Qed.

(** X7.  Of two overlapping calls that both bring records, the records kept are
    those of the call answered last, not of the call made last. *)
Theorem overlap_last_answer_wins
    a b c d a' b' c' d' status1 text1 payload1 status2 text2 payload2 st :
  let first := fetchData a b c d in
  let second := fetchData a' b' c' d' in
  let answer1 := inr (Response_ok status1 text1 (inr payload1)) in
  let answer2 := inr (Response_ok status2 text2 (inr payload2)) in
  data (overlap_in_order first second answer1 answer2 st)
    = Some (transformWeatherData payload2) ∧
  data (overlap_reversed first second answer1 answer2 st)
    = Some (transformWeatherData payload1) ∧
  error (overlap_in_order first second answer1 answer2 st) = None ∧
  error (overlap_reversed first second answer1 answer2 st) = None.
Proof.
  cbv zeta. rewrite overlap_in_order_settle, overlap_reversed_settle.
  repeat split.
Qed.

(** X8.  Of two overlapping calls of which one brings records and the other
    fails, both traces stay: whichever call it is and whichever is
    answered first, the state ends with the records of the one and the
    message of the other, and not loading. *)
Theorem overlap_keeps_data_and_error
    a b c d a' b' c' d' status text payload failure st :
  succeeds failure = false →
  let first := fetchData a b c d in
  let second := fetchData a' b' c' d' in
  let good := inr (Response_ok status text (inr payload)) in
  ∀ final_state,
    final_state = overlap_in_order first second good failure st ∨
    final_state = overlap_in_order first second failure good st ∨
    final_state = overlap_reversed first second good failure st ∨
    final_state = overlap_reversed first second failure good st →
    data final_state = Some (transformWeatherData payload) ∧
    error final_state = Some (failure_message failure) ∧
    loading final_state = false.
Proof.
  intros Hfail. cbv zeta. intros final_state.
  rewrite !overlap_in_order_settle, !overlap_reversed_settle.
  destruct failure as [t|[s0 t0 [t|p]|s0 t0 body]]; try discriminate Hfail;
    intros [-> | [-> | [-> | ->]]]; repeat split.
Qed.

(** X9.  When the second of two overlapping calls is answered first, the
    spinner goes away although the first call is still waiting. *)
Theorem overlap_stops_loading_early a b c d a' b' c' d' answer_second st :
  ∃ st' k,
    overlap_midway (fetchData a b c d) (fetchData a' b' c' d') answer_second st
    = (st', Waiting (apiUrl a b c d) k) ∧
    loading st' = false ∧
    charts st' ≠ (Spinner, Spinner).
Proof.
  unfold overlap_midway.
  destruct (fetchData_task a b c d st) as (k1 & -> & Hk1).
  destruct (fetchData_task a' b' c' d' (waiting_state st)) as (k2 & -> & Hk2).
  cbn [resume]. rewrite Hk2. eexists _, k1. split; [reflexivity|].
  assert (Hloading : loading (settle answer_second (waiting_state (waiting_state st)))
                     = false).
  { destruct answer_second as [t|[s0 t0 [t|p]|s0 t0 body]]; reflexivity. }
  split; [exact Hloading|].
  unfold charts, ChartCard. rewrite Hloading.
  destruct (string_truthy _); discriminate.
Qed.

End FetchMore.

(** ** Properties of the page: the effect, the date inputs and the button *)

Section PageFacts.

Context {number : Type} {Num : JSNumber number}.
Context (Date_parse : string → option Z).
Context (LATITUDE LONGITUDE : number).

Implicit Types (net : @Network number) (st : @State number).
Implicit Types (page : @App.Page number) (events : list App.event).

Local Abbreviation effect := (App.effect Date_parse LATITUDE LONGITUDE).
Local Abbreviation dispatch := (App.dispatch Date_parse LATITUDE LONGITUDE).
Local Abbreviation session := (App.session Date_parse LATITUDE LONGITUDE).
Local Abbreviation range_error_agrees := (App.range_error_agrees Date_parse).

Lemma run_handleApplyFilter net startDate endDate st :
  run net (handleApplyFilter Date_parse LATITUDE LONGITUDE startDate endDate) st =
  if isValidDateRange Date_parse startDate endDate
  then (settle (net (apiUrl LATITUDE LONGITUDE startDate endDate))
          (waiting_state (apply_update (SetDateRangeError None) st)),
        [apiUrl LATITUDE LONGITUDE startDate endDate], inr tt)
  else (apply_update
          (SetDateRangeError (Some "Start date cannot be after end date.")) st,
        [], inr tt).
Proof.
  unfold handleApplyFilter.
  destruct (isValidDateRange Date_parse startDate endDate); cbn [negb].
  - unfold mbind, prog_bind, setDateRangeError. cbn [bind run].
    apply run_fetchData_settle.
  - reflexivity.
Qed.

Lemma dateRangeError_settle answer st :
  dateRangeError (settle answer st) = dateRangeError st.
Proof. destruct answer as [t|[s0 t0 [t|p]|s0 t0 body]]; reflexivity. Qed.

Lemma effect_agrees net page : range_error_agrees (effect net page).1.
Proof.
  unfold App.range_error_agrees, App.effect.
  cbn [fst App.hooks App.startDate App.endDate].
  rewrite run_handleApplyFilter.
  destruct (isValidDateRange Date_parse _ _); unfold final; cbn [fst];
    [rewrite dateRangeError_settle|]; reflexivity.
Qed.

Lemma effect_dates net page :
  App.startDate (effect net page).1 = App.startDate page ∧
  App.endDate (effect net page).1 = App.endDate page.
Proof. split; reflexivity. Qed.

Lemma effect_requests net page :
  (effect net page).2 =
  if isValidDateRange Date_parse (App.startDate page) (App.endDate page)
  then [apiUrl LATITUDE LONGITUDE (App.startDate page) (App.endDate page)]
  else [].
Proof.
  unfold App.effect. cbn [snd]. rewrite run_handleApplyFilter.
  destruct (isValidDateRange Date_parse _ _); reflexivity.
Qed.

Lemma dispatch_agrees net ev page :
  range_error_agrees page → range_error_agrees (dispatch net ev page).1.
Proof.
  intros Hpage. destruct ev as [|value|value|]; cbn [App.dispatch].
  - apply effect_agrees.
  - destruct (String.eqb value (App.startDate page)); [exact Hpage|].
    apply effect_agrees.
  - destruct (String.eqb value (App.endDate page)); [exact Hpage|].
    apply effect_agrees.
  - destruct (disabled _); [exact Hpage|]. apply effect_agrees.
Qed.

Lemma session_agrees net events page :
  range_error_agrees page → range_error_agrees (session net events page).1.
Proof.
  revert page. induction events as [|ev events IH]; intros page Hpage;
    cbn [App.session]; [exact Hpage|].
  pose proof (dispatch_agrees net ev page Hpage) as Hnext.
  destruct (dispatch net ev page) as [page1 urls1].
  specialize (IH page1 Hnext).
  destruct (session net events page1) as [page2 urls2]. exact IH.
Qed.

(** X10.  From the mount on, whatever the user does, the range message is on
    screen exactly when the Apply button is disabled, that is, when the
    dates in the two inputs do not form a valid range. *)
Theorem range_message_follows_inputs net events page :
  let page' := (session net (App.Mount :: events) page).1 in
  let shown :=
    DateRangePicker Date_parse (App.startDate page') (App.endDate page')
      (dateRangeError (App.hooks page')) in
  errorMessage shown =
    (if disabled shown then Some "Start date cannot be after end date." else None) ∧
  disabled shown =
    negb (isValidDateRange Date_parse (App.startDate page') (App.endDate page')).
Proof.
  cbv zeta. split; [|reflexivity].
  assert (Hagrees : range_error_agrees (session net (App.Mount :: events) page).1).
  { cbn [App.session App.dispatch].
    pose proof (effect_agrees net page) as Hmount.
    destruct (effect net page) as [page1 urls1].
    pose proof (session_agrees net events page1 Hmount) as Hrest.
    destruct (session net events page1) as [page2 urls2]. exact Hrest. }
  unfold App.range_error_agrees in Hagrees.
  unfold DateRangePicker. cbn [errorMessage disabled].
  rewrite Hagrees.
  destruct (isValidDateRange Date_parse _ _); reflexivity.
Qed.

(** X11.  The page never asks for an invalid range: every request made during a
    session is the URL of a pair of dates that [isValidDateRange]
    accepts. *)
Theorem session_requests_valid net events page :
  Forall
    (λ url, ∃ startDate endDate,
       url = apiUrl LATITUDE LONGITUDE startDate endDate ∧
       isValidDateRange Date_parse startDate endDate = true)
    (session net events page).2.
Proof.
  revert page. induction events as [|ev events IH]; intros page;
    cbn [App.session]; [constructor|].
  assert (Hdispatch :
    Forall
      (λ url, ∃ startDate endDate,
         url = apiUrl LATITUDE LONGITUDE startDate endDate ∧
         isValidDateRange Date_parse startDate endDate = true)
      (dispatch net ev page).2).
  { assert (Heffect : ∀ p,
      Forall
        (λ url, ∃ startDate endDate,
           url = apiUrl LATITUDE LONGITUDE startDate endDate ∧
           isValidDateRange Date_parse startDate endDate = true)
        (effect net p).2).
    { intros p. rewrite effect_requests.
      destruct (isValidDateRange Date_parse (App.startDate p) (App.endDate p))
        eqn:Hvalid; repeat constructor. eauto. }
    destruct ev as [|value|value|]; cbn [App.dispatch].
    - apply Heffect.
    - destruct (String.eqb value (App.startDate page)); [constructor|apply Heffect].
    - destruct (String.eqb value (App.endDate page)); [constructor|apply Heffect].
    - destruct (disabled _); [constructor|apply Heffect]. }
  destruct (dispatch net ev page) as [page1 urls1].
  specialize (IH page1).
  destruct (session net events page1) as [page2 urls2].
  cbn [snd] in *. apply Forall_app. split; assumption.
Qed.

(** X12.  Editing a date applies the filter by itself: a new start date or a
    new end date makes the request for the new range at once if the range
    is valid, and none if it is not; typing the date that is already there
    does nothing. *)
Theorem date_change_applies net value page :
  let new_start := dispatch net (App.StartDateChange value) page in
  let new_end := dispatch net (App.EndDateChange value) page in
  (value ≠ App.startDate page →
     App.startDate new_start.1 = value ∧
     App.endDate new_start.1 = App.endDate page ∧
     new_start.2 =
       if isValidDateRange Date_parse value (App.endDate page)
       then [apiUrl LATITUDE LONGITUDE value (App.endDate page)]
       else []) ∧
  (value ≠ App.endDate page →
     App.startDate new_end.1 = App.startDate page ∧
     App.endDate new_end.1 = value ∧
     new_end.2 =
       if isValidDateRange Date_parse (App.startDate page) value
       then [apiUrl LATITUDE LONGITUDE (App.startDate page) value]
       else []) ∧
  (value = App.startDate page → new_start = (page, [])) ∧
  (value = App.endDate page → new_end = (page, [])).
Proof.
  cbv zeta. cbn [App.dispatch].
  destruct (String.eqb_spec value (App.startDate page)) as [Hs|Hs];
    destruct (String.eqb_spec value (App.endDate page)) as [He|He];
    repeat split; try contradiction; try (intros _); try reflexivity;
    try (rewrite effect_requests; reflexivity).
Qed.

End PageFacts.

(** ** Further properties of the date utilities *)

Section DateMore.

Local Open Scope Z_scope.

Lemma digit_value_digit n : digit_value (digit n) = Some (n mod 10).
Proof.
  unfold digit.
  assert (Hrange : 0 <= n mod 10 < 10) by (apply Z.mod_pos_bound; lia).
  rewrite <- (Z2Nat.id (n mod 10)) at 2 by lia.
  assert (Hk : (Z.to_nat (n mod 10) < 10)%nat) by lia.
  clear Hrange. generalize dependent (Z.to_nat (n mod 10)). intros k Hk.
  do 10 (destruct k as [|k]; [reflexivity|]). lia.
Qed.

Lemma digits_value_digit acc n cs :
  digits_value acc (digit n :: cs) = digits_value (10 * acc + n mod 10) cs.
Proof. cbn [digits_value]. rewrite digit_value_digit. reflexivity. Qed.

Lemma InLeapYear_cases t :
  (is_leap (YearFromTime t) = true ∧ InLeapYear t = 1 ∧ DaysInYear (YearFromTime t) = 366) ∨
  (is_leap (YearFromTime t) = false ∧ InLeapYear t = 0 ∧ DaysInYear (YearFromTime t) = 365).
Proof.
  unfold InLeapYear, DaysInYear. destruct (is_leap (YearFromTime t)); auto.
Qed.

Lemma MonthFromTime_range t : 0 <= MonthFromTime t <= 11.
Proof. apply month_of_day_within_year_range. Qed.

(** The day of the month is a day of that month. *)
Lemma DateFromTime_range t :
  1 <= DateFromTime t <= DaysInMonth (YearFromTime t) (MonthFromTime t).
Proof.
  unfold DateFromTime, DaysInMonth, MonthFromTime.
  pose proof (DayWithinYear_range t) as Hrange.
  destruct (InLeapYear_cases t) as [(Hleap & -> & Hdays)|(Hleap & -> & Hdays)];
    rewrite Hleap; rewrite Hdays in Hrange;
    generalize dependent (DayWithinYear t); intros d Hrange;
    unfold month_of_day_within_year;
    repeat match goal with
           | |- context [?a <? ?b] => destruct (Z.ltb_spec a b)
           end;
    simpl; lia.
Qed.

Lemma Day_in_years t :
  0 <= YearFromTime t <= 9999 → -719528 <= Day t < 2932897.
Proof.
  unfold YearFromTime. intros Hyear.
  pose proof (YearFromDay_spec (Day t)) as Hspec.
  generalize dependent (YearFromDay (Day t)). intros y Hyear Hspec.
  unfold DayFromYear in Hspec. Z.div_mod_to_equations. lia.
Qed.

Lemma digits_value_4 y :
  0 <= y <= 9999 →
  digits_value 0 [digit (y / 10 / 10 / 10); digit (y / 10 / 10); digit (y / 10); digit y]
  = Some y.
Proof.
  intros Hy. rewrite !digits_value_digit. cbn [digits_value]. f_equal.
  Z.div_mod_to_equations. lia.
Qed.

Lemma digits_value_2 n :
  0 <= n <= 99 → digits_value 0 [digit (n / 10); digit n] = Some n.
Proof.
  intros Hn. rewrite !digits_value_digit. cbn [digits_value]. f_equal.
  Z.div_mod_to_equations. lia.
Qed.

Lemma DaysInMonth_le y m : 0 <= m <= 11 → DaysInMonth y m <= 31.
Proof.
  intros Hm. unfold DaysInMonth.
  assert (Hcases : m = 0 ∨ m = 1 ∨ m = 2 ∨ m = 3 ∨ m = 4 ∨ m = 5 ∨ m = 6 ∨
                   m = 7 ∨ m = 8 ∨ m = 9 ∨ m = 10 ∨ m = 11) by lia.
  destruct (is_leap y);
    repeat (destruct Hcases as [->|Hcases]; [simpl; lia|]);
    subst m; simpl; lia.
Qed.

(** The date part of an ISO string, in the years that take four digits,
    parses back to the midnight that starts its day. *)
Lemma parse_iso_date t :
  0 <= YearFromTime t <= 9999 →
  parse_date_only (iso_date t) = Some (Day t * msPerDay).
Proof.
  intros Hyear.
  pose proof (MonthFromTime_range t) as Hmonth.
  pose proof (DateFromTime_range t) as Hdate.
  pose proof (MakeDay_shift t 0) as Hday.
  rewrite !Z.add_0_r in Hday.
  pose proof (DaysInMonth_le (YearFromTime t) (MonthFromTime t) Hmonth) as Hdim.
  unfold iso_date, iso_year, parse_date_only.
  replace ((0 <=? YearFromTime t) && (YearFromTime t <=? 9999)) with true
    by (symmetry; apply andb_true_intro; split; apply Z.leb_le; lia).
  generalize dependent (DateFromTime t). intros d Hdate Hday.
  generalize dependent (MonthFromTime t). intros m Hmonth Hdim Hdate Hday.
  generalize dependent (YearFromTime t). intros y Hyear Hdim Hdate Hday.
  assert (Hchars :
    String.list_ascii_of_string
      (pad 4 y +:+ "-" +:+ pad 2 (m + 1) +:+ "-" +:+ pad 2 d)
    = [digit (y / 10 / 10 / 10); digit (y / 10 / 10); digit (y / 10); digit y;
       "-"%char; digit ((m + 1) / 10); digit (m + 1);
       "-"%char; digit (d / 10); digit d]) by reflexivity.
  cbv iota. rewrite Hchars. cbv iota beta.
  rewrite digits_value_4 by lia.
  rewrite !digits_value_2 by lia.
  replace (m + 1 - 1) with m by lia.
  replace ((1 <=? m + 1) && (m + 1 <=? 12) && (1 <=? d) && (d <=? DaysInMonth y m))
    with true
    by (symmetry; repeat (apply andb_true_intro; split); apply Z.leb_le; lia).
  rewrite Hday. unfold MakeDate. rewrite Z.add_0_r. reflexivity.
Qed.

Lemma Date_of_string_iso_date t :
  0 <= YearFromTime t <= 9999 →
  Date_of_string parse_date_only (iso_date t) = Some (Day t * msPerDay).
Proof.
  intros Hyear. unfold Date_of_string. rewrite parse_iso_date by exact Hyear.
  pose proof (Day_in_years t Hyear) as Hday. unfold TimeClip.
  destruct (Z.ltb_spec 8640000000000000 (Z.abs (Day t * msPerDay))) as [Hbig|_];
    [|reflexivity].
  unfold msPerDay in Hbig. lia.
Qed.

Lemma time_in_years t :
  0 <= YearFromTime t <= 9999 → Z.abs t <= 8640000000000000.
Proof.
  intros Hyear. pose proof (Day_in_years t Hyear) as Hday.
  unfold Day, msPerDay in Hday. Z.div_mod_to_equations. lia.
Qed.

Lemma month_day_Day t1 t2 : Day t1 = Day t2 → month_day t1 = month_day t2.
Proof.
  intros H.
  unfold month_day, DateFromTime, MonthFromTime, InLeapYear, DayWithinYear,
    YearFromTime.
  rewrite H. reflexivity.
Qed.

Section AnyZone.

Context (LocalTZA : Z → bool → Z).

(** The instant [getDateStringDaysAgo] arrives at: [n] days back on the
    local clock, read with the offset in force then. *)
Lemma getDateStringDaysAgo_instant now n :
  let before := LocalTZA now true in
  let after := LocalTZA (now + before - n * msPerDay) false in
  getDateStringDaysAgo LocalTZA now n =
  match TimeClip (Some (now + before - n * msPerDay - after)) with
  | Some t => inr (iso_date t)
  | None => inl (ErrorObject "RangeError" "Invalid time value")
  end.
Proof.
  cbv zeta.
  unfold getDateStringDaysAgo, Date_now, getDate, number_sub, setDate.
  replace (DateFromTime (LocalTime LocalTZA now) - n)
    with (DateFromTime (LocalTime LocalTZA now) + - n) by lia.
  rewrite MakeDay_shift.
  assert (Hnew : MakeDate (Day (LocalTime LocalTZA now) + - n)
                   (TimeWithinDay (LocalTime LocalTZA now))
                 = now + LocalTZA now true - n * msPerDay).
  { unfold MakeDate, Day, TimeWithinDay, LocalTime.
    pose proof (Z.div_mod (now + LocalTZA now true) msPerDay) as Hdm.
    unfold msPerDay in *. lia. }
  rewrite Hnew. unfold UTC.
  destruct (TimeClip _) as [t|]; [|reflexivity].
  unfold toISOString. rewrite iso_split. reflexivity.
Qed.

(** X13.  A date string that [getTodayDateString] produces reads back, through
    the date-only parser, as the midnight that starts the UTC day of the
    clock: it is a valid end of a range and a valid start of one. *)
Theorem getTodayDateString_parses_back now :
  0 <= YearFromTime now <= 9999 →
  ∃ today,
    getTodayDateString now = inr today ∧
    Date_of_string parse_date_only today = Some (Day now * msPerDay) ∧
    isValidDateRange parse_date_only today today = true.
Proof.
  intros Hyear. exists (iso_date now).
  split; [apply getTodayDateString_iso|].
  pose proof (Date_of_string_iso_date now Hyear) as Hparse.
  split; [exact Hparse|].
  unfold isValidDateRange. rewrite Hparse. apply Z.leb_refl.
Qed.

(** X14.  [getTodayDateString] gives the date in UTC, not on the local
    calendar: whenever the two differ, what it returns is not the local
    date. *)
Theorem getTodayDateString_is_not_local now :
  0 <= YearFromTime now <= 9999 →
  0 <= YearFromTime (LocalTime LocalTZA now) <= 9999 →
  Day (LocalTime LocalTZA now) ≠ Day now →
  getTodayDateString now ≠ inr (iso_date (LocalTime LocalTZA now)).
Proof.
  intros Hyear Hlocal Hdiffer. rewrite getTodayDateString_iso.
  intros Heq. injection Heq as Heq.
  pose proof (parse_iso_date now Hyear) as Hnow.
  pose proof (parse_iso_date (LocalTime LocalTZA now) Hlocal) as Hthere.
  rewrite Heq, Hthere in Hnow. injection Hnow as Hnow.
  unfold msPerDay in Hnow. lia.
Qed.

(** X15.  The default range of the page, where the local offset is the same now
    and six days ago: the start date reads back as six days before the
    day of its clock reading, the end date as the day of its own, so the
    range is valid exactly when the start's reading is no more than six
    days past the end's day, and with one reading it spans seven days. *)
Theorem default_range now_end now_start offset :
  LocalTZA now_start true = offset →
  LocalTZA (now_start + offset - 6 * msPerDay) false = offset →
  0 <= YearFromTime now_end <= 9999 →
  0 <= YearFromTime (now_start - 6 * msPerDay) <= 9999 →
  ∃ startDate endDate,
    defaultStartDate LocalTZA now_start = inr startDate ∧
    defaultEndDate now_end = inr endDate ∧
    Date_of_string parse_date_only startDate
      = Some ((Day now_start - 6) * msPerDay) ∧
    Date_of_string parse_date_only endDate = Some (Day now_end * msPerDay) ∧
    (isValidDateRange parse_date_only startDate endDate = true
     ↔ Day now_start - 6 <= Day now_end).
Proof.
  intros Hbefore Hafter Hend Hstart.
  exists (iso_date (now_start - 6 * msPerDay)), (iso_date now_end).
  pose proof (getDateStringDaysAgo_instant now_start 6) as Hcall.
  cbv zeta in Hcall. rewrite Hbefore, Hafter in Hcall.
  replace (now_start + offset - 6 * msPerDay - offset)
    with (now_start - 6 * msPerDay) in Hcall by lia.
  pose proof (time_in_years _ Hstart) as Hrange.
  unfold TimeClip in Hcall.
  destruct (Z.ltb_spec 8640000000000000 (Z.abs (now_start - 6 * msPerDay)));
    [lia|].
  pose proof (Date_of_string_iso_date _ Hstart) as Hs.
  rewrite Day_shift in Hs.
  pose proof (Date_of_string_iso_date _ Hend) as He.
  split; [exact Hcall|]. split; [apply getTodayDateString_iso|].
  split; [exact Hs|]. split; [exact He|].
  unfold isValidDateRange. rewrite Hs, He. cbn [number_le].
  rewrite Z.leb_le. unfold msPerDay. lia.
Qed.

(** X16.  [getDateStringDaysAgo] throws a RangeError, and returns no date, when
    the instant it arrives at lies outside the range of time values. *)
Theorem getDateStringDaysAgo_out_of_range now n :
  let before := LocalTZA now true in
  let after := LocalTZA (now + before - n * msPerDay) false in
  8640000000000000 < Z.abs (now + before - n * msPerDay - after) →
  getDateStringDaysAgo LocalTZA now n
  = inl (ErrorObject "RangeError" "Invalid time value").
Proof.
  cbv zeta. intros Hout. rewrite getDateStringDaysAgo_instant.
  cbv zeta. unfold TimeClip.
  destruct (Z.ltb_spec 8640000000000000
              (Z.abs (now + LocalTZA now true - n * msPerDay
                      - LocalTZA (now + LocalTZA now true - n * msPerDay) false)));
    [reflexivity|lia].
Qed.

(** X17.  In any time zone whose offset changes by no more than a day, the date
    [getDateStringDaysAgo n] returns is the date of a day at most one day
    away from [n] days before the UTC day of the clock. *)
Theorem getDateStringDaysAgo_within_a_day now n :
  let before := LocalTZA now true in
  let after := LocalTZA (now + before - n * msPerDay) false in
  Z.abs (before - after) <= msPerDay →
  Z.abs (now + before - n * msPerDay - after) <= 8640000000000000 →
  ∃ t,
    getDateStringDaysAgo LocalTZA now n = inr (iso_date t) ∧
    Day now - n - 1 <= Day t <= Day now - n + 1.
Proof.
  cbv zeta. intros Hchange Hrange.
  exists (now + LocalTZA now true - n * msPerDay
          - LocalTZA (now + LocalTZA now true - n * msPerDay) false).
  split.
  - rewrite getDateStringDaysAgo_instant. cbv zeta. unfold TimeClip.
    destruct (Z.ltb_spec 8640000000000000
                (Z.abs (now + LocalTZA now true - n * msPerDay
                        - LocalTZA (now + LocalTZA now true - n * msPerDay) false)));
      [lia|reflexivity].
  - generalize dependent (LocalTZA (now + LocalTZA now true - n * msPerDay) false).
    intros after Hchange Hrange.
    generalize dependent (LocalTZA now true). intros before Hchange Hrange.
    unfold Day, msPerDay in *. Z.div_mod_to_equations. lia.
Qed.

(** X18.  The labels of the charts.  A date the parser reads as a UTC midnight
    is labelled with the day before in a zone behind UTC and with its own
    day in a zone at or ahead of UTC; a string that does not parse is
    labelled "Invalid Date". *)
Theorem formatChartDate_label (Date_parse : string → option Z) dateString :
  (Date_parse dateString = None →
     formatChartDate LocalTZA Date_parse dateString = "Invalid Date") ∧
  (∀ t,
     Date_parse dateString = Some t → Z.abs t <= 8640000000000000 →
     t mod msPerDay = 0 →
     (- msPerDay <= LocalTZA t true < 0 →
        formatChartDate LocalTZA Date_parse dateString = month_day (t - msPerDay)) ∧
     (0 <= LocalTZA t true < msPerDay →
        formatChartDate LocalTZA Date_parse dateString = month_day t)).
Proof.
  unfold formatChartDate, Date_of_string. split.
  - intros ->. reflexivity.
  - intros t -> Hrange Hmidnight. unfold TimeClip.
    destruct (Z.ltb_spec 8640000000000000 (Z.abs t)); [lia|].
    cbn [toLocaleDateString]. unfold LocalTime.
    generalize dependent (LocalTZA t true). intros offset.
    split; intros Hoffset; apply month_day_Day;
      unfold Day, msPerDay in *; Z.div_mod_to_equations; lia.
Qed.

End AnyZone.

(** X19.  On strings that parse, [isValidDateRange] is a total preorder by the
    instant they denote: it holds one way or the other, it chains, and it
    holds both ways only between strings that denote the same instant. *)
Theorem isValidDateRange_order (Date_parse : string → option Z) a b c :
  (is_Some (Date_of_string Date_parse a) → is_Some (Date_of_string Date_parse b) →
     isValidDateRange Date_parse a b = true ∨
     isValidDateRange Date_parse b a = true) ∧
  (isValidDateRange Date_parse a b = true →
   isValidDateRange Date_parse b c = true →
     isValidDateRange Date_parse a c = true) ∧
  (isValidDateRange Date_parse a b = true →
   isValidDateRange Date_parse b a = true →
     Date_of_string Date_parse a = Date_of_string Date_parse b).
Proof.
  unfold isValidDateRange, number_le.
  destruct (Date_of_string Date_parse a) as [ta|],
           (Date_of_string Date_parse b) as [tb|],
           (Date_of_string Date_parse c) as [tc|];
    repeat split; try discriminate;
    try (intros [? ?]; discriminate);
    try (intros _ [? ?]; discriminate);
    rewrite ?Z.leb_le; try lia;
    try (intros; f_equal; lia).
Qed.

End DateMore.

(** ** The further theorems at concrete inputs *)

Section MoreSamples.

Local Abbreviation call :=
  (fetchData ABUJA_LATITUDE ABUJA_LONGITUDE "2024-03-04" "2024-03-10").
Local Abbreviation later_call :=
  (fetchData ABUJA_LATITUDE ABUJA_LONGITUDE "2024-03-05" "2024-03-10").

Lemma transformWeatherData_injective_witness :
  daily (sample_response sample_daily) = daily (elsewhere sample_daily).
Proof.
  apply (transformWeatherData_injective (sample_response sample_daily)
           (elsewhere sample_daily)).
  - repeat split.
  - repeat split.
  - reflexivity.
Defined.

Lemma transformWeatherData_app_witness :
  transformWeatherData (sample_response (daily_app sample_daily third_day))
  = transformWeatherData (sample_response sample_daily)
    ++ transformWeatherData (elsewhere third_day).
Proof.
  apply (transformWeatherData_app (sample_response sample_daily)
           (elsewhere third_day)
           (sample_response (daily_app sample_daily third_day))).
  - repeat split.
  - reflexivity.
Defined.

Lemma charts_after_fetchData_witness :
  charts (final (run offline call sample_state))
  = (ErrorPanel "Failed to fetch", ErrorPanel "Failed to fetch").
Proof.
  pose proof (charts_after_fetchData offline ABUJA_LATITUDE ABUJA_LONGITUDE
                "2024-03-04" "2024-03-10" sample_state) as Hcharts.
  cbv zeta in Hcharts. unfold offline at 2, always in Hcharts.
  apply Hcharts. discriminate.
Defined.

Lemma charts_blank_on_empty_message_witness :
  error (final (run silent_failure call initial)) = Some "" ∧
  data (final (run silent_failure call initial)) = None ∧
  loading (final (run silent_failure call initial)) = false ∧
  charts (final (run silent_failure call initial)) = (Children None, Children None).
Proof.
  apply (charts_blank_on_empty_message silent_failure ABUJA_LATITUDE
           ABUJA_LONGITUDE "2024-03-04" "2024-03-10" initial "Error").
  left. reflexivity.
Defined.

(** The older call fails after the newer one has brought its records. *)
Lemma overlap_keeps_data_and_error_witness :
  let good := inr (Response_ok 200 "OK" (inr (sample_response sample_daily))) in
  let failure := inl (ErrorObject "TypeError" "Failed to fetch") in
  data (overlap_reversed call later_call failure good initial)
    = Some (transformWeatherData (sample_response sample_daily)) ∧
  error (overlap_reversed call later_call failure good initial)
    = Some "Failed to fetch" ∧
  loading (overlap_reversed call later_call failure good initial) = false.
Proof.
  cbv zeta.
  apply (overlap_keeps_data_and_error ABUJA_LATITUDE ABUJA_LONGITUDE
           "2024-03-04" "2024-03-10" ABUJA_LATITUDE ABUJA_LONGITUDE
           "2024-03-05" "2024-03-10" 200 "OK" (sample_response sample_daily)
           (inl (ErrorObject "TypeError" "Failed to fetch")) initial eq_refl).
  right. right. right. reflexivity.
Defined.

(** On the sample page the start date is moved to 2024-03-12, past the
    end date, and then back to 2024-03-01. *)
Lemma date_change_applies_witness :
  (App.dispatch parse_date_only ABUJA_LATITUDE ABUJA_LONGITUDE offline
     (App.StartDateChange "2024-03-12") sample_page).2 = [] ∧
  (App.dispatch parse_date_only ABUJA_LATITUDE ABUJA_LONGITUDE offline
     (App.StartDateChange "2024-03-01") sample_page).2
  = [apiUrl ABUJA_LATITUDE ABUJA_LONGITUDE "2024-03-01" "2024-03-10"].
Proof.
  split.
  - destruct (date_change_applies parse_date_only ABUJA_LATITUDE ABUJA_LONGITUDE
                offline "2024-03-12" sample_page) as (Hstart & _).
    destruct Hstart as (_ & _ & Hurls); [discriminate|]. exact Hurls.
  - destruct (date_change_applies parse_date_only ABUJA_LATITUDE ABUJA_LONGITUDE
                offline "2024-03-01" sample_page) as (Hstart & _).
    destruct Hstart as (_ & _ & Hurls); [discriminate|]. exact Hurls.
Defined.

Lemma getTodayDateString_parses_back_witness :
  ∃ today,
    getTodayDateString 1710070200000 = inr today ∧
    Date_of_string parse_date_only today = Some (Day 1710070200000 * msPerDay)%Z ∧
    isValidDateRange parse_date_only today today = true.
Proof.
  apply (getTodayDateString_parses_back 1710070200000).
  split; vm_compute; discriminate.
Defined.

(** Half past midnight on 2024-03-10 in Lagos is still 2024-03-09 in UTC. *)
Lemma getTodayDateString_is_not_local_witness :
  getTodayDateString 1710027000000
  ≠ inr (iso_date (LocalTime zone_Lagos 1710027000000)).
Proof.
  apply (getTodayDateString_is_not_local zone_Lagos 1710027000000).
  - split; vm_compute; discriminate.
  - split; vm_compute; discriminate.
  - vm_compute. discriminate.
Defined.

Lemma default_range_witness :
  ∃ startDate endDate,
    defaultStartDate zone_Lagos 1710070200000 = inr startDate ∧
    defaultEndDate 1710070200000 = inr endDate ∧
    Date_of_string parse_date_only startDate
      = Some ((Day 1710070200000 - 6) * msPerDay)%Z ∧
    Date_of_string parse_date_only endDate
      = Some (Day 1710070200000 * msPerDay)%Z ∧
    (isValidDateRange parse_date_only startDate endDate = true
     ↔ (Day 1710070200000 - 6 ≤ Day 1710070200000)%Z).
Proof.
  apply (default_range zone_Lagos 1710070200000 1710070200000 msPerHour).
  - reflexivity.
  - reflexivity.
  - split; vm_compute; discriminate.
  - split; vm_compute; discriminate.
Defined.

Lemma getDateStringDaysAgo_out_of_range_witness :
  getDateStringDaysAgo zone_UTC 1710070200000 1000000000
  = inl (ErrorObject "RangeError" "Invalid time value").
Proof.
  apply (getDateStringDaysAgo_out_of_range zone_UTC 1710070200000 1000000000).
  vm_compute. reflexivity.
Defined.

Lemma getDateStringDaysAgo_within_a_day_witness :
  ∃ t,
    getDateStringDaysAgo zone_New_York evening_of_2024_03_10 6 = inr (iso_date t) ∧
    (Day evening_of_2024_03_10 - 6 - 1 ≤ Day t ≤ Day evening_of_2024_03_10 - 6 + 1)%Z.
Proof.
  apply (getDateStringDaysAgo_within_a_day zone_New_York evening_of_2024_03_10 6).
  - vm_compute. discriminate.
  - vm_compute. discriminate.
Defined.

(** The label of 2024-03-10 in New York. *)
Lemma formatChartDate_label_witness :
  formatChartDate zone_New_York parse_date_only "2024-03-10"
  = month_day (1710028800000 - msPerDay).
Proof.
  destruct (formatChartDate_label zone_New_York parse_date_only "2024-03-10")
    as [_ Hlabel].
  assert (Hrange : (Z.abs 1710028800000 ≤ 8640000000000000)%Z)
    by (vm_compute; discriminate).
  pose proof (Hlabel 1710028800000%Z eq_refl Hrange eq_refl) as [Hwest _].
  apply Hwest. split; vm_compute; [discriminate|reflexivity].
Defined.

Example formatChartDate_New_York :
  formatChartDate zone_New_York parse_date_only "2024-03-10" = "Mar 9" ∧
  formatChartDate zone_Lagos parse_date_only "2024-03-10" = "Mar 10" ∧
  formatChartDate zone_Lagos parse_date_only "" = "Invalid Date".
Proof. vm_compute. repeat split. Qed.

Lemma isValidDateRange_order_witness :
  isValidDateRange parse_date_only "2024-03-04" "2024-03-12" = true.
Proof.
  destruct (isValidDateRange_order parse_date_only
              "2024-03-04" "2024-03-10" "2024-03-12") as (_ & Hchain & _).
  apply Hchain; reflexivity.
Defined.

End MoreSamples.
